(** * ten-vad: the speech state machine of [examples/ten_vad_state_machine]

    A shallow embedding of the frame classifier implemented in
    [ten_vad_state_machine.h] / its C implementation, and the properties
    its specification states about it.

    Conventions of the embedding:
    - a C [int] is a [Z]; [x++], [a + b] and [a - b] on [int] are written
      with the two's complement wrap-around of a 32-bit word (what the
      usual compilers produce; ISO C leaves signed overflow undefined);
    - a C [float] is an IEEE-754 binary32 number, a [spec_float] used at
      precision 24 and maximal exponent 128, with round-to-nearest-even
      arithmetic and IEEE comparisons (a NaN compares false);
    - the handle [vad_state_machine_t *] is an [option]: [None] is [NULL];
    - the struct is mutated in place: functions on it are written in a
      small state monad that also collects what the call does to the
      outside world (the user callback and the [printf] line). *)

From Stdlib Require Import ZArith Bool Lia String List.
From Stdlib Require Import SpecFloat.
Import ListNotations.
Local Open Scope Z_scope.

(** ** C integers *)

Module CInt.

Definition INT_MAX : Z := 2147483647.
Definition INT_MIN : Z := -2147483648.

Definition in_range (z : Z) : Prop := INT_MIN <= z <= INT_MAX.

(** The value of [z] as a 32-bit two's complement word. *)
Definition wrap (z : Z) : Z := (z + 2147483648) mod 4294967296 - 2147483648.

Definition add (a b : Z) : Z := wrap (a + b).
Definition sub (a b : Z) : Z := wrap (a - b).
(** [x++] *)
Definition incr (a : Z) : Z := add a 1.
(** [a >= b] *)
Definition ge (a b : Z) : bool := b <=? a.

End CInt.

(** ** C floats (binary32) *)

Module CFloat.

Definition t : Type := spec_float.

Definition prec : Z := 24.
Definition emax : Z := 128.

(** The conversion [(float) z] of an integer. *)
Definition of_Z (z : Z) : t := binary_normalize prec emax z 0 false.

Definition mul (x y : t) : t := SFmul prec emax x y.
Definition div (x y : t) : t := SFdiv prec emax x y.

(** [x < y] and [x >= y]; both are false when an operand is a NaN. *)
Definition lt (x y : t) : bool := SFltb x y.
Definition ge (x y : t) : bool := SFleb y x.

(** The literal [0.0f]. *)
Definition zero : t := S754_zero false.

End CFloat.

(** The C type [float]. *)
Definition float : Type := CFloat.t.

(** ** The data model *)

(** [vad_state_t] *)
Inductive vad_state_t : Type :=
| VAD_STATE_SILENCE
| VAD_STATE_SPEECH_START
| VAD_STATE_SPEECH_CONTINUE
| VAD_STATE_SPEECH_PAUSE
| VAD_STATE_SPEECH_END.

Definition vad_state_eqb (a b : vad_state_t) : bool :=
  match a, b with
  | VAD_STATE_SILENCE, VAD_STATE_SILENCE
  | VAD_STATE_SPEECH_START, VAD_STATE_SPEECH_START
  | VAD_STATE_SPEECH_CONTINUE, VAD_STATE_SPEECH_CONTINUE
  | VAD_STATE_SPEECH_PAUSE, VAD_STATE_SPEECH_PAUSE
  | VAD_STATE_SPEECH_END, VAD_STATE_SPEECH_END => true
  | _, _ => false
  end.

(** [vad_state_config_t] *)
Record vad_state_config_t : Type := mk_config {
  speech_start_frames : Z;
  speech_end_frames : Z;
  pause_frames : Z;
  pause_resume_frames : Z;
  min_speech_duration_ms : float;
  max_pause_duration_ms : float
}.

(** A function pointer or a [void *]: an address, [0] being [NULL]. *)
Definition pointer : Type := Z.
Definition NULL : pointer := 0.
Definition is_null (p : pointer) : bool := p =? NULL.

(** [struct vad_state_machine] *)
Record vad_state_machine : Type := mk_sm {
  config : vad_state_config_t;
  hop_size : Z;
  sample_rate : Z;
  frame_duration_ms : float;
  current_state : vad_state_t;
  previous_state : vad_state_t;
  speech_frame_count : Z;
  silence_frame_count : Z;
  total_frame_count : Z;
  current_state_frames : Z;
  speech_start_frame : Z;
  last_speech_frame : Z;
  callback : pointer;
  user_data : pointer
}.

(** Assignments to the fields the code writes after construction. *)
Definition set_current_state (v : vad_state_t) (sm : vad_state_machine) :=
  mk_sm (config sm) (hop_size sm) (sample_rate sm) (frame_duration_ms sm)
        v (previous_state sm)
        (speech_frame_count sm) (silence_frame_count sm) (total_frame_count sm)
        (current_state_frames sm) (speech_start_frame sm) (last_speech_frame sm)
        (callback sm) (user_data sm).

Definition set_previous_state (v : vad_state_t) (sm : vad_state_machine) :=
  mk_sm (config sm) (hop_size sm) (sample_rate sm) (frame_duration_ms sm)
        (current_state sm) v
        (speech_frame_count sm) (silence_frame_count sm) (total_frame_count sm)
        (current_state_frames sm) (speech_start_frame sm) (last_speech_frame sm)
        (callback sm) (user_data sm).

Definition set_speech_frame_count (v : Z) (sm : vad_state_machine) :=
  mk_sm (config sm) (hop_size sm) (sample_rate sm) (frame_duration_ms sm)
        (current_state sm) (previous_state sm)
        v (silence_frame_count sm) (total_frame_count sm)
        (current_state_frames sm) (speech_start_frame sm) (last_speech_frame sm)
        (callback sm) (user_data sm).

Definition set_silence_frame_count (v : Z) (sm : vad_state_machine) :=
  mk_sm (config sm) (hop_size sm) (sample_rate sm) (frame_duration_ms sm)
        (current_state sm) (previous_state sm)
        (speech_frame_count sm) v (total_frame_count sm)
        (current_state_frames sm) (speech_start_frame sm) (last_speech_frame sm)
        (callback sm) (user_data sm).

Definition set_total_frame_count (v : Z) (sm : vad_state_machine) :=
  mk_sm (config sm) (hop_size sm) (sample_rate sm) (frame_duration_ms sm)
        (current_state sm) (previous_state sm)
        (speech_frame_count sm) (silence_frame_count sm) v
        (current_state_frames sm) (speech_start_frame sm) (last_speech_frame sm)
        (callback sm) (user_data sm).

Definition set_current_state_frames (v : Z) (sm : vad_state_machine) :=
  mk_sm (config sm) (hop_size sm) (sample_rate sm) (frame_duration_ms sm)
        (current_state sm) (previous_state sm)
        (speech_frame_count sm) (silence_frame_count sm) (total_frame_count sm)
        v (speech_start_frame sm) (last_speech_frame sm)
        (callback sm) (user_data sm).

Definition set_speech_start_frame (v : Z) (sm : vad_state_machine) :=
  mk_sm (config sm) (hop_size sm) (sample_rate sm) (frame_duration_ms sm)
        (current_state sm) (previous_state sm)
        (speech_frame_count sm) (silence_frame_count sm) (total_frame_count sm)
        (current_state_frames sm) v (last_speech_frame sm)
        (callback sm) (user_data sm).

Definition set_last_speech_frame (v : Z) (sm : vad_state_machine) :=
  mk_sm (config sm) (hop_size sm) (sample_rate sm) (frame_duration_ms sm)
        (current_state sm) (previous_state sm)
        (speech_frame_count sm) (silence_frame_count sm) (total_frame_count sm)
        (current_state_frames sm) (speech_start_frame sm) v
        (callback sm) (user_data sm).

(** [static const vad_state_config_t default_config] *)
Definition default_config : vad_state_config_t :=
  {| speech_start_frames := 3;
     speech_end_frames := 10;
     pause_frames := 5;
     pause_resume_frames := 2;
     min_speech_duration_ms := CFloat.of_Z 200;
     max_pause_duration_ms := CFloat.of_Z 1000 |}.

(** [vad_state_get_name]; the enum has no value that reaches [default:]. *)
Definition vad_state_get_name (state : vad_state_t) : string :=
  match state with
  | VAD_STATE_SILENCE => "SILENCE"
  | VAD_STATE_SPEECH_START => "SPEECH_START"
  | VAD_STATE_SPEECH_CONTINUE => "SPEECH_CONTINUE"
  | VAD_STATE_SPEECH_PAUSE => "SPEECH_PAUSE"
  | VAD_STATE_SPEECH_END => "SPEECH_END"
  end%string.

(** ** Effects *)

(** What a call does besides writing the struct. *)
Inductive event : Type :=
| (** [fn(old_state, new_state, user_data)] through the function pointer. *)
  EvCallback (fn : pointer) (old_state new_state : vad_state_t) (data : pointer)
| (** [printf("[VAD State] %s -> %s (frame: %d)\n", ...)] *)
  EvPrintf (old_name new_name : string) (frame : Z).

(** Code running on [*sm]: it returns a value, leaves the struct updated
    and appends to the trace of events. *)
Definition SM (A : Type) : Type :=
  vad_state_machine -> A * vad_state_machine * list event.

Definition ret {A} (a : A) : SM A := fun sm => (a, sm, []).

Definition bind {A B} (m : SM A) (k : A -> SM B) : SM B :=
  fun sm =>
    let '(a, sm1, t1) := m sm in
    let '(b, sm2, t2) := k a sm1 in
    (b, sm2, t1 ++ t2).

(** Read [sm->f]. *)
Definition load {A} (f : vad_state_machine -> A) : SM A :=
  fun sm => (f sm, sm, []).

(** Write through [sm]. *)
Definition store (g : vad_state_machine -> vad_state_machine) : SM unit :=
  fun sm => (tt, g sm, []).

Definition emit (e : event) : SM unit := fun sm => (tt, sm, [e]).

Definition skip : SM unit := ret tt.

Declare Scope sm_scope.
Delimit Scope sm_scope with sm.
Notation "x <- m ;; k" := (bind m (fun x => k))
  (at level 61, m at next level, right associativity) : sm_scope.
Notation "m ;; k" := (bind m (fun _ => k))
  (at level 61, right associativity) : sm_scope.
Local Open Scope sm_scope.

(** ** The operations *)

(** [static void change_state(sm, new_state)] *)
Definition change_state (new_state : vad_state_t) : SM unit :=
  cur <- load current_state ;;
  if negb (vad_state_eqb cur new_state) then
    let old_state := cur in
    store (fun sm => set_previous_state (current_state sm) sm) ;;
    store (set_current_state new_state) ;;
    store (set_current_state_frames 0) ;;
    fn <- load callback ;;
    data <- load user_data ;;
    (if is_null fn then skip
     else emit (EvCallback fn old_state new_state data)) ;;
    frame <- load total_frame_count ;;
    emit (EvPrintf (vad_state_get_name old_state)
                   (vad_state_get_name new_state) frame)
  else skip.

(** The struct [vad_state_machine_create] builds once [malloc] succeeded;
    [cfg] is [None] for a [NULL] configuration. *)
Definition fresh (cfg : option vad_state_config_t) (hop rate : Z)
    (fn data : pointer) : vad_state_machine :=
  {| config := match cfg with Some c => c | None => default_config end;
     hop_size := hop;
     sample_rate := rate;
     frame_duration_ms :=
       CFloat.div (CFloat.mul (CFloat.of_Z hop) (CFloat.of_Z 1000))
                  (CFloat.of_Z rate);
     current_state := VAD_STATE_SILENCE;
     previous_state := VAD_STATE_SILENCE;
     speech_frame_count := 0;
     silence_frame_count := 0;
     total_frame_count := 0;
     current_state_frames := 0;
     speech_start_frame := -1;
     last_speech_frame := -1;
     callback := fn;
     user_data := data |}.

(** A handle: [None] is the null pointer. *)
Definition handle : Type := option vad_state_machine.

(** [vad_state_machine_create]; [malloc_ok] tells whether [malloc]
    returned memory. *)
Definition vad_state_machine_create (malloc_ok : bool)
    (cfg : option vad_state_config_t) (hop rate : Z) (fn data : pointer)
    : handle :=
  if malloc_ok then Some (fresh cfg hop rate fn data) else None.

(** The frame is voiced when its flag is not [0] (the test [if (vad_flag)]). *)
Definition voiced (vad_flag : Z) : bool := negb (vad_flag =? 0).

(** The body of [vad_state_machine_process] past the null test. *)
Definition process_frame (vad_flag : Z) (probability : float) : SM vad_state_t :=
  store (fun sm => set_total_frame_count (CInt.incr (total_frame_count sm)) sm) ;;
  store (fun sm => set_current_state_frames (CInt.incr (current_state_frames sm)) sm) ;;
  (if voiced vad_flag then
     store (fun sm => set_speech_frame_count (CInt.incr (speech_frame_count sm)) sm) ;;
     store (set_silence_frame_count 0) ;;
     store (fun sm => set_last_speech_frame (total_frame_count sm) sm)
   else
     store (fun sm => set_silence_frame_count (CInt.incr (silence_frame_count sm)) sm) ;;
     store (set_speech_frame_count 0)) ;;
  st <- load current_state ;;
  match st with
  | VAD_STATE_SILENCE =>
      go <- load (fun sm => CInt.ge (speech_frame_count sm)
                                    (speech_start_frames (config sm))) ;;
      if go then
        store (fun sm => set_speech_start_frame
                 (CInt.add (CInt.sub (total_frame_count sm) (speech_frame_count sm)) 1) sm) ;;
        change_state VAD_STATE_SPEECH_START
      else skip
  | VAD_STATE_SPEECH_START =>
      if voiced vad_flag then
        change_state VAD_STATE_SPEECH_CONTINUE
      else
        ended <- load (fun sm => CInt.ge (silence_frame_count sm)
                                         (speech_end_frames (config sm))) ;;
        if ended then
          speech_duration <- load (fun sm =>
            CFloat.mul (CFloat.of_Z (current_state_frames sm)) (frame_duration_ms sm)) ;;
          short <- load (fun sm =>
            CFloat.lt speech_duration (min_speech_duration_ms (config sm))) ;;
          if short then change_state VAD_STATE_SILENCE
          else change_state VAD_STATE_SPEECH_END
        else skip
  | VAD_STATE_SPEECH_CONTINUE =>
      paused <- load (fun sm => CInt.ge (silence_frame_count sm)
                                        (pause_frames (config sm))) ;;
      if paused then change_state VAD_STATE_SPEECH_PAUSE else skip
  | VAD_STATE_SPEECH_PAUSE =>
      resumed <- load (fun sm => CInt.ge (speech_frame_count sm)
                                         (pause_resume_frames (config sm))) ;;
      if resumed then change_state VAD_STATE_SPEECH_CONTINUE
      else
        timeout <- load (fun sm =>
          CFloat.ge (CFloat.mul (CFloat.of_Z (silence_frame_count sm))
                                (frame_duration_ms sm))
                    (max_pause_duration_ms (config sm))) ;;
        if timeout then change_state VAD_STATE_SPEECH_END else skip
  | VAD_STATE_SPEECH_END =>
      again <- load (fun sm => CInt.ge (speech_frame_count sm)
                                       (speech_start_frames (config sm))) ;;
      if again then
        store (fun sm => set_speech_start_frame
                 (CInt.add (CInt.sub (total_frame_count sm) (speech_frame_count sm)) 1) sm) ;;
        change_state VAD_STATE_SPEECH_START
      else change_state VAD_STATE_SILENCE
  end ;;
  load current_state.

(** What a call of the API gives back: the returned value, the handle
    (whose struct the call may have written) and the events of the call. *)
Definition call (A : Type) : Type := A * handle * list event.

(** [vad_state_machine_process] *)
Definition vad_state_machine_process (h : handle) (vad_flag : Z)
    (probability : float) : call vad_state_t :=
  match h with
  | None => (VAD_STATE_SILENCE, None, [])
  | Some sm =>
      let '(r, sm', t) := process_frame vad_flag probability sm in
      (r, Some sm', t)
  end.

(** [vad_state_machine_get_current_state] *)
Definition vad_state_machine_get_current_state (h : handle) : vad_state_t :=
  match h with
  | Some sm => current_state sm
  | None => VAD_STATE_SILENCE
  end.

(** [vad_state_machine_get_current_state_duration] *)
Definition vad_state_machine_get_current_state_duration (h : handle) : float :=
  match h with
  | None => CFloat.zero
  | Some sm =>
      CFloat.mul (CFloat.of_Z (current_state_frames sm)) (frame_duration_ms sm)
  end.

(** [vad_state_machine_reset] *)
Definition reset_fields : SM unit :=
  store (set_current_state VAD_STATE_SILENCE) ;;
  store (set_previous_state VAD_STATE_SILENCE) ;;
  store (set_speech_frame_count 0) ;;
  store (set_silence_frame_count 0) ;;
  store (set_total_frame_count 0) ;;
  store (set_current_state_frames 0) ;;
  store (set_speech_start_frame (-1)) ;;
  store (set_last_speech_frame (-1)).

Definition vad_state_machine_reset (h : handle) : call unit :=
  match h with
  | None => (tt, None, [])
  | Some sm =>
      let '(r, sm', t) := reset_fields sm in
      (r, Some sm', t)
  end.

(** ** Running a classifier over a stream of frames *)

(** One frame decision of the detector: the flag and the probability. *)
Definition frame : Type := (Z * float)%type.

(** [vad_state_machine_process] called once per frame, in order, on the
    same handle: the final handle, the returned states and the events. *)
Fixpoint process_all (h : handle) (frames : list frame)
    : handle * list vad_state_t * list event :=
  match frames with
  | [] => (h, [], [])
  | (vad_flag, probability) :: rest =>
      let '(r, h1, t1) := vad_state_machine_process h vad_flag probability in
      let '(h2, rs, t2) := process_all h1 rest in
      (h2, r :: rs, t1 ++ t2)
  end.

(** The three parts of what [process_all] gives. *)
Definition final_handle (x : handle * list vad_state_t * list event) : handle :=
  fst (fst x).
Definition returned_states (x : handle * list vad_state_t * list event)
    : list vad_state_t :=
  snd (fst x).
Definition all_events (x : handle * list vad_state_t * list event) : list event :=
  snd x.

(** ** The transition table of the specification *)

(** What the table reads: the frame's flag and the struct as it stands
    once the run counters have been updated for the frame. *)
Record table_input : Type := mk_input {
  in_voiced : bool;
  in_speech_frame_count : Z;
  in_silence_frame_count : Z;
  in_current_state_frames : Z;
  in_frame_duration_ms : float;
  in_config : vad_state_config_t
}.

(** The update of the run counters the specification describes: a voiced
    frame extends the speech run and ends the silence run, a silent frame
    does the reverse, and [current_state_frames] counts the frame. *)
Definition counters_updated (sm : vad_state_machine) (vad_flag : Z) : table_input :=
  {| in_voiced := voiced vad_flag;
     in_speech_frame_count :=
       if voiced vad_flag then CInt.incr (speech_frame_count sm) else 0;
     in_silence_frame_count :=
       if voiced vad_flag then 0 else CInt.incr (silence_frame_count sm);
     in_current_state_frames := CInt.incr (current_state_frames sm);
     in_frame_duration_ms := frame_duration_ms sm;
     in_config := config sm |}.

(** The elapsed time [current_state_frames * frame_duration_ms]. *)
Definition elapsed_ms (i : table_input) : float :=
  CFloat.mul (CFloat.of_Z (in_current_state_frames i)) (in_frame_duration_ms i).

(** The silent time [silence_frame_count * frame_duration_ms]. *)
Definition silent_ms (i : table_input) : float :=
  CFloat.mul (CFloat.of_Z (in_silence_frame_count i)) (in_frame_duration_ms i).

Record table_row : Type := mk_row {
  row_from : vad_state_t;
  row_condition : table_input -> bool;
  row_to : vad_state_t
}.

(** The nine rows, in the order of the specification. *)
Definition transition_table : list table_row :=
  [ mk_row VAD_STATE_SILENCE
      (fun i => speech_start_frames (in_config i) <=? in_speech_frame_count i)
      VAD_STATE_SPEECH_START;
    mk_row VAD_STATE_SPEECH_START
      (fun i => in_voiced i)
      VAD_STATE_SPEECH_CONTINUE;
    mk_row VAD_STATE_SPEECH_START
      (fun i => (speech_end_frames (in_config i) <=? in_silence_frame_count i)
                && CFloat.lt (elapsed_ms i) (min_speech_duration_ms (in_config i)))
      VAD_STATE_SILENCE;
    mk_row VAD_STATE_SPEECH_START
      (fun i => (speech_end_frames (in_config i) <=? in_silence_frame_count i)
                && negb (CFloat.lt (elapsed_ms i) (min_speech_duration_ms (in_config i))))
      VAD_STATE_SPEECH_END;
    mk_row VAD_STATE_SPEECH_CONTINUE
      (fun i => pause_frames (in_config i) <=? in_silence_frame_count i)
      VAD_STATE_SPEECH_PAUSE;
    mk_row VAD_STATE_SPEECH_PAUSE
      (fun i => pause_resume_frames (in_config i) <=? in_speech_frame_count i)
      VAD_STATE_SPEECH_CONTINUE;
    mk_row VAD_STATE_SPEECH_PAUSE
      (fun i => CFloat.ge (silent_ms i) (max_pause_duration_ms (in_config i)))
      VAD_STATE_SPEECH_END;
    mk_row VAD_STATE_SPEECH_END
      (fun i => speech_start_frames (in_config i) <=? in_speech_frame_count i)
      VAD_STATE_SPEECH_START;
    mk_row VAD_STATE_SPEECH_END
      (fun _ => true)
      VAD_STATE_SILENCE ].

(** A row applies in state [s] on input [i]. *)
Definition row_applies (s : vad_state_t) (i : table_input) (r : table_row) : bool :=
  vad_state_eqb (row_from r) s && row_condition r i.

(** The state the table dictates: the target of the first row that
    applies, [None] when no row does. *)
Definition table_target (s : vad_state_t) (i : table_input) : option vad_state_t :=
  option_map row_to (find (row_applies s i) transition_table).

(** ** Counting calls since the last transition *)

(** A call makes a transition when the state it returns differs from the
    state before it. In the two functions below [recent] lists the states
    the calls returned, the most recent first, and [s0] is the state
    before the first call. *)

(** The number of calls made after the last call that made a transition
    (all the calls when none did). *)
Fixpoint calls_after_last_transition (recent : list vad_state_t)
    (s0 : vad_state_t) : nat :=
  match recent with
  | [] => O
  | s :: earlier =>
      if vad_state_eqb s (hd s0 earlier)
      then S (calls_after_last_transition earlier s0)
      else O
  end.

(** The same count with the call that made the transition included. *)
Fixpoint calls_since_entry (recent : list vad_state_t)
    (s0 : vad_state_t) : nat :=
  match recent with
  | [] => O
  | s :: earlier =>
      if vad_state_eqb s (hd s0 earlier)
      then S (calls_since_entry earlier s0)
      else 1%nat
  end.

(** ** Reading the events of a call *)

Definition is_callback (e : event) : bool :=
  match e with EvCallback _ _ _ _ => true | EvPrintf _ _ _ => false end.

Definition is_printf (e : event) : bool :=
  match e with EvPrintf _ _ _ => true | EvCallback _ _ _ _ => false end.

(** How often the callback was invoked. *)
Definition callback_count (t : list event) : nat :=
  List.length (filter is_callback t).

(** How often [change_state] changed the state: it prints its line each
    time it does, and nothing else prints. *)
Definition transition_count (t : list event) : nat :=
  List.length (filter is_printf t).

(** What holds of an invocation of the callback during a call that takes
    the struct from [sm] to [sm']: the two states passed differ, they are
    the states before and after the call, and [previous_state] holds the
    old one. *)
Definition callback_sound (sm sm' : vad_state_machine) (e : event) : Prop :=
  match e with
  | EvCallback fn old_state new_state data =>
      old_state <> new_state
      /\ old_state = current_state sm
      /\ new_state = current_state sm'
      /\ previous_state sm' = old_state
      /\ fn = callback sm /\ data = user_data sm
  | EvPrintf _ _ _ => True
  end.

(** ** Example classifiers *)

(** A configuration that accepts any onset as an utterance. *)
Definition eager_config : vad_state_config_t :=
  mk_config 3 5 5 2 (CFloat.of_Z 0) (CFloat.of_Z 1000).

(** The struct of a classifier that has just entered [SPEECH_END]: under
    [eager_config], after 3 voiced and 5 silent frames of 16 ms. *)
Definition speech_end_example : vad_state_machine :=
  {| config := eager_config;
     hop_size := 256;
     sample_rate := 16000;
     frame_duration_ms := CFloat.of_Z 16;
     current_state := VAD_STATE_SPEECH_END;
     previous_state := VAD_STATE_SPEECH_START;
     speech_frame_count := 0;
     silence_frame_count := 5;
     total_frame_count := 8;
     current_state_frames := 0;
     speech_start_frame := 1;
     last_speech_frame := 3;
     callback := NULL;
     user_data := NULL |}.

(** ** Reading a stream of frames *)

(** In the three functions below [recent] lists the frames processed so
    far, the most recent first. *)

(** The length of the run of voiced frames the stream ends with. *)
Fixpoint voiced_run (recent : list frame) : nat :=
  match recent with
  | [] => O
  | (vad_flag, _) :: earlier =>
      if voiced vad_flag then S (voiced_run earlier) else O
  end.

(** The length of the run of silent frames the stream ends with. *)
Fixpoint silent_run (recent : list frame) : nat :=
  match recent with
  | [] => O
  | (vad_flag, _) :: earlier =>
      if voiced vad_flag then O else S (silent_run earlier)
  end.

(** The position of the last voiced frame, the first frame being frame 1;
    [-1] when no frame was voiced. *)
Fixpoint last_voiced_index (recent : list frame) : Z :=
  match recent with
  | [] => -1
  | (vad_flag, _) :: earlier =>
      if voiced vad_flag then Z.of_nat (List.length recent)
      else last_voiced_index earlier
  end.

(** The changes of state in a sequence of states that starts in [s0]:
    each pair of neighbours that differ, in order. *)
Fixpoint state_changes (s0 : vad_state_t) (states : list vad_state_t)
    : list (vad_state_t * vad_state_t) :=
  match states with
  | [] => []
  | s :: rest =>
      if vad_state_eqb s0 s then state_changes s rest
      else (s0, s) :: state_changes s rest
  end.

(** The lines [change_state] prints, as pairs of state names. *)
Definition printed_names (t : list event) : list (string * string) :=
  flat_map (fun e => match e with
                     | EvPrintf old_name new_name _ => [(old_name, new_name)]
                     | EvCallback _ _ _ _ => []
                     end) t.

(** The nine arrows of the state diagram. *)
Definition transition_edge (a b : vad_state_t) : bool :=
  match a, b with
  | VAD_STATE_SILENCE, VAD_STATE_SPEECH_START
  | VAD_STATE_SPEECH_START, VAD_STATE_SPEECH_CONTINUE
  | VAD_STATE_SPEECH_START, VAD_STATE_SILENCE
  | VAD_STATE_SPEECH_START, VAD_STATE_SPEECH_END
  | VAD_STATE_SPEECH_CONTINUE, VAD_STATE_SPEECH_PAUSE
  | VAD_STATE_SPEECH_PAUSE, VAD_STATE_SPEECH_CONTINUE
  | VAD_STATE_SPEECH_PAUSE, VAD_STATE_SPEECH_END
  | VAD_STATE_SPEECH_END, VAD_STATE_SPEECH_START
  | VAD_STATE_SPEECH_END, VAD_STATE_SILENCE => true
  | _, _ => false
  end.

(** A float that is neither a NaN nor an infinity. *)
Definition float_is_finite (x : float) : bool :=
  match x with
  | S754_zero _ | S754_finite _ _ _ => true
  | S754_infinity _ | S754_nan => false
  end.

(** A float that is a zero of either sign. *)
Definition float_is_zero (x : float) : bool :=
  match x with
  | S754_zero _ => true
  | _ => false
  end.

(** A configuration whose onset threshold is a single voiced frame and
    that accepts any onset as an utterance. *)
Definition quick_config : vad_state_config_t :=
  mk_config 1 5 5 2 (CFloat.of_Z 0) (CFloat.of_Z 1000).

(** The struct of a classifier that has just entered [SPEECH_END]: under
    [quick_config], after 1 voiced and 5 silent frames of 16 ms. *)
Definition speech_end_quick_example : vad_state_machine :=
  {| config := quick_config;
     hop_size := 256;
     sample_rate := 16000;
     frame_duration_ms := CFloat.of_Z 16;
     current_state := VAD_STATE_SPEECH_END;
     previous_state := VAD_STATE_SPEECH_START;
     speech_frame_count := 0;
     silence_frame_count := 5;
     total_frame_count := 6;
     current_state_frames := 0;
     speech_start_frame := 1;
     last_speech_frame := 1;
     callback := NULL;
     user_data := NULL |}.

(** The struct of a classifier created with [hop_size = 0] and
    [sample_rate = 0], whose frame duration [0 * 1000 / 0] is a NaN, after
    3 voiced and 9 silent frames: it is in [SPEECH_START], one silent
    frame short of [speech_end_frames]. *)
Definition nan_onset_example : vad_state_machine :=
  {| config := default_config;
     hop_size := 0;
     sample_rate := 0;
     frame_duration_ms := S754_nan;
     current_state := VAD_STATE_SPEECH_START;
     previous_state := VAD_STATE_SILENCE;
     speech_frame_count := 0;
     silence_frame_count := 9;
     total_frame_count := 12;
     current_state_frames := 9;
     speech_start_frame := 1;
     last_speech_frame := 3;
     callback := NULL;
     user_data := NULL |}.

(** A classifier created the same way after 4 voiced and 5 silent frames:
    it has just
    entered [SPEECH_PAUSE]. *)
Definition nan_pause_example : vad_state_machine :=
  {| config := default_config;
     hop_size := 0;
     sample_rate := 0;
     frame_duration_ms := S754_nan;
     current_state := VAD_STATE_SPEECH_PAUSE;
     previous_state := VAD_STATE_SPEECH_CONTINUE;
     speech_frame_count := 0;
     silence_frame_count := 5;
     total_frame_count := 9;
     current_state_frames := 0;
     speech_start_frame := 1;
     last_speech_frame := 4;
     callback := NULL;
     user_data := NULL |}.

(** The struct of a classifier with the default configuration and frames
    of 16 ms after 4 voiced frames: it has just entered [SPEECH_CONTINUE]. *)
Definition ongoing_speech_example : vad_state_machine :=
  {| config := default_config;
     hop_size := 256;
     sample_rate := 16000;
     frame_duration_ms := CFloat.of_Z 16;
     current_state := VAD_STATE_SPEECH_CONTINUE;
     previous_state := VAD_STATE_SPEECH_START;
     speech_frame_count := 4;
     silence_frame_count := 0;
     total_frame_count := 4;
     current_state_frames := 0;
     speech_start_frame := 1;
     last_speech_frame := 4;
     callback := NULL;
     user_data := NULL |}.

(** ** Evaluating the monadic code *)

(** Unfolds the monad and the field accesses, and nothing else: the
    integer and float operations stay folded. *)
Ltac sm_unfold :=
  cbv beta iota zeta delta
    [vad_state_machine_process vad_state_machine_reset reset_fields
     process_frame change_state bind load store emit skip ret
     set_current_state set_previous_state set_speech_frame_count
     set_silence_frame_count set_total_frame_count set_current_state_frames
     set_speech_start_frame set_last_speech_frame
     config hop_size sample_rate frame_duration_ms current_state
     previous_state speech_frame_count silence_frame_count total_frame_count
     current_state_frames speech_start_frame last_speech_frame callback
     user_data vad_state_eqb negb app fst snd CInt.ge].

(** Splits on the first test the code is stuck on. *)
Ltac sm_case :=
  match goal with
  | |- context [if voiced ?f then _ else _] => destruct (voiced f) eqn:?
  | |- context [if ?a <=? ?b then _ else _] => destruct (a <=? b) eqn:?
  | |- context [if CFloat.lt ?a ?b then _ else _] => destruct (CFloat.lt a b) eqn:?
  | |- context [if CFloat.ge ?a ?b then _ else _] => destruct (CFloat.ge a b) eqn:?
  | |- context [if is_null ?a then _ else _] => destruct (is_null a) eqn:?
  end.

Ltac sm_run := sm_unfold; repeat (sm_case; sm_unfold).

Lemma vad_state_eqb_eq : forall a b, vad_state_eqb a b = true <-> a = b.
Proof. intros [] []; cbn; split; congruence. Qed.

Lemma wrap_in_range : forall z, CInt.in_range z -> CInt.wrap z = z.
Proof.
  unfold CInt.in_range, CInt.INT_MIN, CInt.INT_MAX, CInt.wrap. intros z Hz.
  rewrite Z.mod_small; lia.
Qed.

Lemma wrap_succ : forall z, CInt.incr (CInt.wrap z) = CInt.wrap (z + 1).
Proof.
  intros z. unfold CInt.incr, CInt.add, CInt.wrap.
  replace ((z + 2147483648) mod 4294967296 - 2147483648 + 1 + 2147483648)
    with ((z + 2147483648) mod 4294967296 + 1) by lia.
  replace (z + 1 + 2147483648) with ((z + 2147483648) + 1) by lia.
  rewrite Zplus_mod_idemp_l. reflexivity.
Qed.

Lemma incr_in_range : forall z,
  CInt.INT_MIN <= z < CInt.INT_MAX -> CInt.incr z = z + 1.
Proof.
  intros z Hz. unfold CInt.incr, CInt.add. apply wrap_in_range.
  unfold CInt.in_range, CInt.INT_MIN, CInt.INT_MAX in *. lia.
Qed.

(** ** The transition table (C1) *)

(** C1. One call of [vad_state_machine_process] on a valid handle, in any
    state and on any frame, updates the run counters and then moves
    [current_state] as the nine-row transition table dictates on the
    updated counters; when no row applies, the state is unchanged and
    [current_state_frames] has been incremented. The call returns the
    resulting state. *)
Theorem process_follows_transition_table :
  forall (sm : vad_state_machine) (vad_flag : Z) (probability : float),
  exists (sm' : vad_state_machine) (t : list event),
    vad_state_machine_process (Some sm) vad_flag probability
      = (current_state sm', Some sm', t)
    /\ speech_frame_count sm'
       = in_speech_frame_count (counters_updated sm vad_flag)
    /\ silence_frame_count sm'
       = in_silence_frame_count (counters_updated sm vad_flag)
    /\ match table_target (current_state sm) (counters_updated sm vad_flag) with
       | Some target => current_state sm' = target
       | None =>
           current_state sm' = current_state sm
           /\ current_state_frames sm' = CInt.incr (current_state_frames sm)
       end.
Proof.
  intros sm vad_flag probability.
  exists (snd (fst (process_frame vad_flag probability sm))),
         (snd (process_frame vad_flag probability sm)).
  destruct sm as [cfg hop rate fd st prev sp si tot csf ssf lsf fn data].
  unfold table_target, counters_updated, transition_table, find, row_applies,
    elapsed_ms, silent_ms.
  cbv beta iota delta [row_from row_condition row_to in_voiced
    in_speech_frame_count in_silence_frame_count in_current_state_frames
    in_frame_duration_ms in_config option_map fst snd].
  sm_unfold.
  destruct (voiced vad_flag) eqn:Hv; destruct st; sm_run;
    cbv beta iota delta [fst snd andb negb];
    repeat split; reflexivity.
Qed.

(** ** Short-burst rejection (C2) *)

(** C2. With [speech_start_frames = 3], [speech_end_frames = 5],
    [min_speech_duration_ms = 200] and a frame duration of 16 ms, a freshly
    constructed classifier fed 3 voiced frames and then 5 silent frames
    ends in [SILENCE]: the states it returns are [SILENCE], [SILENCE],
    [SPEECH_START] (five times in all) and finally [SILENCE], never
    [SPEECH_END]. The other configuration fields, the callback and the
    probabilities are arbitrary. *)
Theorem short_burst_rejected :
  forall (cfg : vad_state_config_t) (hop rate : Z) (fn data : pointer)
         (p1 p2 p3 p4 p5 p6 p7 p8 : float),
    speech_start_frames cfg = 3 ->
    speech_end_frames cfg = 5 ->
    min_speech_duration_ms cfg = CFloat.of_Z 200 ->
    frame_duration_ms (fresh (Some cfg) hop rate fn data) = CFloat.of_Z 16 ->
    let run :=
      process_all (vad_state_machine_create true (Some cfg) hop rate fn data)
        [(1, p1); (1, p2); (1, p3);
         (0, p4); (0, p5); (0, p6); (0, p7); (0, p8)] in
    vad_state_machine_get_current_state (final_handle run) = VAD_STATE_SILENCE
    /\ returned_states run
       = [VAD_STATE_SILENCE; VAD_STATE_SILENCE; VAD_STATE_SPEECH_START;
          VAD_STATE_SPEECH_START; VAD_STATE_SPEECH_START;
          VAD_STATE_SPEECH_START; VAD_STATE_SPEECH_START; VAD_STATE_SILENCE].
Proof.
  intros [start stop pause resume min_ms max_ms] hop rate fn data
         p1 p2 p3 p4 p5 p6 p7 p8 Hstart Hstop Hmin Hfd run.
  cbn [speech_start_frames speech_end_frames min_speech_duration_ms] in *.
  subst start stop min_ms.
  unfold run, vad_state_machine_create, fresh in *.
  cbn [frame_duration_ms] in Hfd. rewrite Hfd. clear Hfd run.
  destruct fn as [|fn|fn]; vm_compute; split; reflexivity.
Qed.

(** The configuration of the example: 256 samples per frame at 16 kHz. *)
Lemma short_burst_rejected_witness :
  vad_state_machine_get_current_state
    (final_handle
       (process_all
          (vad_state_machine_create true
             (Some (mk_config 3 5 5 2 (CFloat.of_Z 200) (CFloat.of_Z 1000)))
             256 16000 NULL NULL)
          [(1, CFloat.zero); (1, CFloat.zero); (1, CFloat.zero);
           (0, CFloat.zero); (0, CFloat.zero); (0, CFloat.zero);
           (0, CFloat.zero); (0, CFloat.zero)]))
  = VAD_STATE_SILENCE.
Proof.
  apply (short_burst_rejected
           (mk_config 3 5 5 2 (CFloat.of_Z 200) (CFloat.of_Z 1000))
           256 16000 NULL NULL
           CFloat.zero CFloat.zero CFloat.zero CFloat.zero
           CFloat.zero CFloat.zero CFloat.zero CFloat.zero);
    reflexivity.
Defined.

(** ** Null handles (C4, C5) *)

(** C4, as the specification states it, asks [vad_state_machine_process]
    to signal a usage error on a null handle. The call does return a
    state: [SILENCE], with the handle still null and nothing emitted. *)
Lemma process_null_handle_returns_default :
  vad_state_machine_process None 1 (CFloat.of_Z 1)
  = (VAD_STATE_SILENCE, None, []).
Proof. reflexivity. Qed.

(** C4, amended. On a null handle [vad_state_machine_process] returns
    [VAD_STATE_SILENCE] for every flag and probability; it writes nothing,
    calls no callback and prints nothing. *)
Theorem process_null_handle :
  forall (vad_flag : Z) (probability : float),
    vad_state_machine_process None vad_flag probability
    = (VAD_STATE_SILENCE, None, []).
Proof. intros vad_flag probability. reflexivity. Qed.

(** C5. On a null handle [vad_state_machine_get_current_state] returns
    [VAD_STATE_SILENCE] and [vad_state_machine_get_current_state_duration]
    returns [0.0f]. *)
Theorem accessors_null_handle :
  vad_state_machine_get_current_state None = VAD_STATE_SILENCE
  /\ vad_state_machine_get_current_state_duration None = CFloat.zero.
Proof. split; reflexivity. Qed.

(** ** The run counters (C6) *)

(** C6. After a call of [vad_state_machine_process] one of the two run
    counters is zero: a voiced frame increments [speech_frame_count] and
    sets [silence_frame_count] to 0, a silent frame increments
    [silence_frame_count] and sets [speech_frame_count] to 0. *)
Theorem run_counters_exclusive :
  forall (sm : vad_state_machine) (vad_flag : Z) (probability : float),
  exists (sm' : vad_state_machine) (t : list event),
    vad_state_machine_process (Some sm) vad_flag probability
      = (current_state sm', Some sm', t)
    /\ (speech_frame_count sm' = 0 \/ silence_frame_count sm' = 0)
    /\ (if voiced vad_flag
        then speech_frame_count sm' = CInt.incr (speech_frame_count sm)
             /\ silence_frame_count sm' = 0
        else silence_frame_count sm' = CInt.incr (silence_frame_count sm)
             /\ speech_frame_count sm' = 0).
Proof.
  intros sm vad_flag probability.
  exists (snd (fst (process_frame vad_flag probability sm))),
         (snd (process_frame vad_flag probability sm)).
  destruct sm as [cfg hop rate fd st prev sp si tot csf ssf lsf fn data].
  sm_unfold.
  destruct (voiced vad_flag) eqn:Hv; destruct st; sm_run;
    cbv beta iota delta [fst snd]; auto.
Qed.

(** ** The probability is not consulted (C8) *)

(** C8. Two calls of [vad_state_machine_process] on the same handle and
    flag that differ only in the probability return the same state, leave
    the same struct and emit the same events. *)
Theorem probability_noninterference :
  forall (h : handle) (vad_flag : Z) (probability1 probability2 : float),
    vad_state_machine_process h vad_flag probability1
    = vad_state_machine_process h vad_flag probability2.
Proof. intros h vad_flag probability1 probability2. reflexivity. Qed.

(** ** One call on a valid handle *)

(** The call on a valid handle is the body run on the struct. *)
Lemma process_valid_handle :
  forall sm vad_flag probability,
    vad_state_machine_process (Some sm) vad_flag probability
    = (fst (fst (process_frame vad_flag probability sm)),
       Some (snd (fst (process_frame vad_flag probability sm))),
       snd (process_frame vad_flag probability sm)).
Proof.
  intros sm vad_flag probability. unfold vad_state_machine_process.
  destruct (process_frame vad_flag probability sm) as [[r sm'] t]. reflexivity.
Qed.

(** The value returned is the state the struct is left in. *)
Lemma process_frame_returns_state :
  forall sm vad_flag probability,
    fst (fst (process_frame vad_flag probability sm))
    = current_state (snd (fst (process_frame vad_flag probability sm))).
Proof.
  intros [cfg hop rate fd st prev sp si tot csf ssf lsf fn data] vad_flag probability.
  sm_unfold. destruct st; sm_run; reflexivity.
Qed.

(** The configuration, the derived constants and the callback are never
    written. *)
Lemma process_frame_constants :
  forall sm vad_flag probability,
    let sm' := snd (fst (process_frame vad_flag probability sm)) in
    config sm' = config sm /\ hop_size sm' = hop_size sm
    /\ sample_rate sm' = sample_rate sm
    /\ frame_duration_ms sm' = frame_duration_ms sm
    /\ callback sm' = callback sm /\ user_data sm' = user_data sm.
Proof.
  intros [cfg hop rate fd st prev sp si tot csf ssf lsf fn data] vad_flag probability.
  sm_unfold. destruct st; sm_run; cbv beta iota delta [fst snd];
    repeat split; reflexivity.
Qed.

(** Either the state is kept and [current_state_frames] has counted the
    frame, or the state has changed and [current_state_frames] is [0]. *)
Lemma process_frame_state_frames :
  forall sm vad_flag probability,
    let sm' := snd (fst (process_frame vad_flag probability sm)) in
    (current_state sm' = current_state sm
     /\ current_state_frames sm' = CInt.incr (current_state_frames sm))
    \/ (current_state sm' <> current_state sm
        /\ current_state_frames sm' = 0).
Proof.
  intros [cfg hop rate fd st prev sp si tot csf ssf lsf fn data] vad_flag probability.
  sm_unfold. destruct st; sm_run; cbv beta iota delta [fst snd];
    solve [ left; split; reflexivity | right; split; [discriminate | reflexivity] ].
Qed.

(** ** Runs *)

Lemma process_all_snoc :
  forall frames h vad_flag probability,
    process_all h (frames ++ [(vad_flag, probability)])
    = let x := process_all h frames in
      let y := vad_state_machine_process (final_handle x) vad_flag probability in
      (snd (fst y), returned_states x ++ [fst (fst y)], all_events x ++ snd y).
Proof.
  induction frames as [|[f p] frames IH]; intros h vad_flag probability.
  - cbn. destruct (vad_state_machine_process h vad_flag probability) as [[r h1] t1].
    cbn. rewrite app_nil_r. reflexivity.
  - cbn [app process_all].
    destruct (vad_state_machine_process h f p) as [[r h1] t1].
    rewrite IH. cbv zeta.
    destruct (process_all h1 frames) as [[h2 rs] t2].
    unfold final_handle, returned_states, all_events. cbn [fst snd].
    destruct (vad_state_machine_process h2 vad_flag probability) as [[r3 h3] t3].
    cbn [fst snd app]. rewrite app_assoc. reflexivity.
Qed.

Lemma final_handle_snoc :
  forall frames h vad_flag probability,
    final_handle (process_all h (frames ++ [(vad_flag, probability)]))
    = snd (fst (vad_state_machine_process
                  (final_handle (process_all h frames)) vad_flag probability)).
Proof. intros. rewrite process_all_snoc. reflexivity. Qed.

Lemma returned_states_snoc :
  forall frames h vad_flag probability,
    returned_states (process_all h (frames ++ [(vad_flag, probability)]))
    = returned_states (process_all h frames)
      ++ [fst (fst (vad_state_machine_process
                      (final_handle (process_all h frames)) vad_flag probability))].
Proof. intros. rewrite process_all_snoc. reflexivity. Qed.

Lemma returned_states_length :
  forall frames h, length (returned_states (process_all h frames)) = length frames.
Proof.
  induction frames as [|[f p] frames IH]; intros h; [reflexivity|].
  cbn [process_all]. destruct (vad_state_machine_process h f p) as [[r h1] t1].
  specialize (IH h1). destruct (process_all h1 frames) as [[h2 rs] t2].
  unfold returned_states in *. cbn [fst snd length] in *. congruence.
Qed.

(** A valid handle stays valid, and its struct keeps the configuration,
    the derived constants and the callback. *)
Lemma process_all_constants :
  forall frames sm,
  exists sm',
    final_handle (process_all (Some sm) frames) = Some sm'
    /\ config sm' = config sm /\ hop_size sm' = hop_size sm
    /\ sample_rate sm' = sample_rate sm
    /\ frame_duration_ms sm' = frame_duration_ms sm
    /\ callback sm' = callback sm /\ user_data sm' = user_data sm.
Proof.
  induction frames as [|[f p] frames IH]; intros sm.
  - exists sm. cbn. repeat split; reflexivity.
  - cbn [process_all]. rewrite process_valid_handle.
    destruct (process_frame_constants sm f p) as (Hc & Hh & Hr & Hf & Hcb & Hu).
    cbv zeta in *.
    destruct (IH (snd (fst (process_frame f p sm))))
      as (sm' & Hfin & Hc' & Hh' & Hr' & Hf' & Hcb' & Hu').
    exists sm'.
    destruct (process_all (Some (snd (fst (process_frame f p sm)))) frames)
      as [[h2 rs] t2].
    unfold final_handle in *. cbn [fst snd] in *.
    repeat split; congruence.
Qed.

(** ** [current_state_frames] (C3) *)

Lemma calls_after_last_transition_le :
  forall recent s0,
    (calls_after_last_transition recent s0 <= List.length recent)%nat.
Proof.
  induction recent as [|s earlier IH]; intros s0; cbn; [lia|].
  destruct (vad_state_eqb s (hd s0 earlier)); [specialize (IH s0)|]; lia.
Qed.

(** From a struct whose [current_state_frames] is [0], the field holds the
    number of calls after the last transition, as a 32-bit integer. *)
Lemma state_frames_wrap :
  forall frames sm0,
    current_state_frames sm0 = 0 ->
    let run := process_all (Some sm0) frames in
    exists sm,
      final_handle run = Some sm
      /\ current_state sm = hd (current_state sm0) (rev (returned_states run))
      /\ current_state_frames sm
         = CInt.wrap (Z.of_nat (calls_after_last_transition
                                  (rev (returned_states run)) (current_state sm0))).
Proof.
  intros frames sm0 H0. cbv zeta.
  induction frames as [|[f p] frames IH] using rev_ind.
  - exists sm0. cbn. rewrite H0. repeat split; reflexivity.
  - destruct IH as (sm & Hfin & Hst & Hcsf).
    rewrite final_handle_snoc, returned_states_snoc, Hfin, process_valid_handle.
    cbn [fst snd].
    exists (snd (fst (process_frame f p sm))).
    rewrite !rev_unit. cbn [hd calls_after_last_transition].
    rewrite process_frame_returns_state, <- Hst.
    split; [reflexivity|]. split; [reflexivity|].
    destruct (process_frame_state_frames sm f p) as [[Hs Hc]|[Hs Hc]];
      cbv zeta in Hs, Hc; rewrite Hc.
    + rewrite Hs.
      replace (vad_state_eqb (current_state sm) (current_state sm)) with true
        by (symmetry; apply vad_state_eqb_eq; reflexivity).
      rewrite Hcsf, wrap_succ. f_equal. lia.
    + destruct (vad_state_eqb _ (current_state sm)) eqn:E.
      * apply vad_state_eqb_eq in E. contradiction.
      * reflexivity.
Qed.

(** C3, as the specification states it, counts the call that caused
    entry into the current state, so that [current_state_frames] would be
    [1] right after a transition. With the default configuration the third
    voiced frame makes the transition to [SPEECH_START], the count that
    includes that call is 1, and [current_state_frames] is [0]. *)
Lemma state_frames_zero_on_entry :
  let run :=
    process_all (vad_state_machine_create true None 256 16000 NULL NULL)
      [(1, CFloat.zero); (1, CFloat.zero); (1, CFloat.zero)] in
  returned_states run
  = [VAD_STATE_SILENCE; VAD_STATE_SILENCE; VAD_STATE_SPEECH_START]
  /\ calls_since_entry (rev (returned_states run)) VAD_STATE_SILENCE = 1%nat
  /\ option_map current_state_frames (final_handle run) = Some 0
  /\ option_map current_state_frames (final_handle run) <> Some 1.
Proof. vm_compute. repeat split; discriminate. Qed.

(** C3, amended. After any run of fewer than 2^31 calls on a freshly
    constructed classifier, [current_state_frames] is the number of calls
    made after the last call on which the state changed (every call when
    it never changed); the call that caused entry into the current state
    is not counted, so the field is [0] right after a transition. *)
Theorem state_frames_count_calls_after_transition :
  forall (cfg : option vad_state_config_t) (hop rate : Z) (fn data : pointer)
         (frames : list frame),
    Z.of_nat (List.length frames) <= CInt.INT_MAX ->
    let run :=
      process_all (vad_state_machine_create true cfg hop rate fn data) frames in
    exists sm,
      final_handle run = Some sm
      /\ current_state_frames sm
         = Z.of_nat (calls_after_last_transition
                       (rev (returned_states run)) VAD_STATE_SILENCE)
      /\ (forall earlier,
            rev (returned_states run) = current_state sm :: earlier ->
            current_state sm <> hd VAD_STATE_SILENCE earlier ->
            current_state_frames sm = 0).
Proof.
  intros cfg hop rate fn data frames Hlen run.
  destruct (state_frames_wrap frames (fresh cfg hop rate fn data) eq_refl)
    as (sm & Hfin & Hst & Hcsf).
  exists sm. cbn [fresh current_state] in Hst, Hcsf.
  change (Some (fresh cfg hop rate fn data))
    with (vad_state_machine_create true cfg hop rate fn data) in Hfin, Hst, Hcsf.
  fold run in Hfin, Hst, Hcsf.
  split; [exact Hfin|].
  assert (Hn : current_state_frames sm
               = Z.of_nat (calls_after_last_transition
                             (rev (returned_states run)) VAD_STATE_SILENCE)).
  { rewrite Hcsf. apply wrap_in_range.
    pose proof (calls_after_last_transition_le
                  (rev (returned_states run)) VAD_STATE_SILENCE) as Hle.
    rewrite length_rev in Hle.
    assert (Hlr : List.length (returned_states run) = List.length frames)
      by apply returned_states_length.
    unfold CInt.in_range, CInt.INT_MIN, CInt.INT_MAX in *. lia. }
  split; [exact Hn|].
  intros earlier Hrev Hne. rewrite Hn, Hrev. cbn [calls_after_last_transition].
  destruct (vad_state_eqb _ _) eqn:E; [|reflexivity].
  apply vad_state_eqb_eq in E. contradiction.
Qed.

(** Three voiced frames and two silent ones under the default
    configuration: two calls after the entry into [SPEECH_START]. *)
Lemma state_frames_count_calls_after_transition_witness :
  exists sm,
    final_handle
      (process_all (vad_state_machine_create true None 256 16000 NULL NULL)
         [(1, CFloat.zero); (1, CFloat.zero); (1, CFloat.zero);
          (0, CFloat.zero); (0, CFloat.zero)]) = Some sm
    /\ current_state_frames sm = 2.
Proof.
  destruct (state_frames_count_calls_after_transition
              None 256 16000 NULL NULL
              [(1, CFloat.zero); (1, CFloat.zero); (1, CFloat.zero);
               (0, CFloat.zero); (0, CFloat.zero)])
    as (sm & Hfin & Hcount & _).
  - vm_compute. discriminate.
  - exists sm. split; [exact Hfin | exact Hcount].
Defined.

(** ** Reset (C7) *)

Lemma reset_fields_result :
  forall sm,
    reset_fields sm
    = (tt,
       mk_sm (config sm) (hop_size sm) (sample_rate sm) (frame_duration_ms sm)
             VAD_STATE_SILENCE VAD_STATE_SILENCE 0 0 0 0 (-1) (-1)
             (callback sm) (user_data sm),
       []).
Proof. intros [cfg hop rate fd st prev sp si tot csf ssf lsf fn data]. reflexivity. Qed.

(** C7. After any sequence of processed frames, [vad_state_machine_reset]
    leaves exactly the struct of a freshly constructed instance: the
    runtime fields have their initial values, the configuration,
    [hop_size], [sample_rate] and [frame_duration_ms] are those the struct
    had before the reset, and the call emits nothing, so the callback is
    not invoked. On a fresh classifier the reset changes nothing. *)
Theorem reset_restores_fresh :
  forall (cfg : option vad_state_config_t) (hop rate : Z) (fn data : pointer)
         (frames : list frame),
    let h0 := vad_state_machine_create true cfg hop rate fn data in
    (exists sm,
       final_handle (process_all h0 frames) = Some sm
       /\ vad_state_machine_reset (Some sm) = (tt, h0, [])
       /\ config sm = config (fresh cfg hop rate fn data)
       /\ hop_size sm = hop
       /\ sample_rate sm = rate
       /\ frame_duration_ms sm = frame_duration_ms (fresh cfg hop rate fn data))
    /\ vad_state_machine_reset h0 = (tt, h0, []).
Proof.
  intros cfg hop rate fn data frames h0. split; [|reflexivity].
  destruct (process_all_constants frames (fresh cfg hop rate fn data))
    as (sm & Hfin & Hc & Hh & Hr & Hf & Hcb & Hu).
  exists sm. split; [exact Hfin|].
  split; [|repeat split; assumption].
  unfold vad_state_machine_reset. rewrite reset_fields_result.
  rewrite Hc, Hh, Hr, Hf, Hcb, Hu. reflexivity.
Qed.

(** ** [SPEECH_END] lasts one frame (C9) *)

(** C9. A call of [vad_state_machine_process] on a classifier that is in
    [SPEECH_END] always leaves that state: the call updates
    [speech_frame_count] for its frame (incremented by a voiced frame, set
    to 0 by a silent one) and moves to [SPEECH_START] when the updated
    count has reached [speech_start_frames], and to [SILENCE] otherwise.
    The struct left has [SPEECH_END] as [previous_state] and the
    configuration it had. *)
Theorem speech_end_lasts_one_frame :
  forall (sm : vad_state_machine) (vad_flag : Z) (probability : float),
    current_state sm = VAD_STATE_SPEECH_END ->
    exists (sm' : vad_state_machine) (t : list event),
      vad_state_machine_process (Some sm) vad_flag probability
        = (current_state sm', Some sm', t)
      /\ speech_frame_count sm'
         = (if voiced vad_flag then CInt.incr (speech_frame_count sm) else 0)
      /\ config sm' = config sm
      /\ current_state sm'
         = (if CInt.ge (if voiced vad_flag
                        then CInt.incr (speech_frame_count sm) else 0)
                       (speech_start_frames (config sm))
            then VAD_STATE_SPEECH_START else VAD_STATE_SILENCE)
      /\ current_state sm'
         = (if CInt.ge (speech_frame_count sm') (speech_start_frames (config sm'))
            then VAD_STATE_SPEECH_START else VAD_STATE_SILENCE)
      /\ current_state sm' <> VAD_STATE_SPEECH_END
      /\ previous_state sm' = VAD_STATE_SPEECH_END
      /\ current_state_frames sm' = 0.
Proof.
  intros sm vad_flag probability Hend.
  exists (snd (fst (process_frame vad_flag probability sm))),
         (snd (process_frame vad_flag probability sm)).
  destruct sm as [cfg hop rate fd st prev sp si tot csf ssf lsf fn data].
  cbn [current_state] in Hend. subst st.
  sm_unfold. sm_run; cbv beta iota delta [fst snd];
    repeat split; first [reflexivity | discriminate | congruence].
Qed.

(** [speech_end_example] is the struct a classifier built with
    [eager_config] holds after 3 voiced and 5 silent frames, and
    [speech_end_quick_example] the struct a classifier built with
    [quick_config] holds after 1 voiced and 5 silent frames. *)
Example speech_end_example_reached :
  final_handle
    (process_all
       (vad_state_machine_create true (Some eager_config) 256 16000 NULL NULL)
       [(1, CFloat.zero); (1, CFloat.zero); (1, CFloat.zero);
        (0, CFloat.zero); (0, CFloat.zero); (0, CFloat.zero);
        (0, CFloat.zero); (0, CFloat.zero)])
  = Some speech_end_example
  /\ final_handle
       (process_all
          (vad_state_machine_create true (Some quick_config) 256 16000 NULL NULL)
          [(1, CFloat.zero);
           (0, CFloat.zero); (0, CFloat.zero); (0, CFloat.zero);
           (0, CFloat.zero); (0, CFloat.zero)])
     = Some speech_end_quick_example.
Proof. split; vm_compute; reflexivity. Qed.

(** Both ways out of [SPEECH_END]: the classifier of [speech_end_example]
    decays to [SILENCE] on a silent frame, and the classifier of
    [speech_end_quick_example], whose threshold is one frame, starts a new
    episode on a voiced frame. *)
Lemma speech_end_lasts_one_frame_witness :
  (exists (sm' : vad_state_machine) (t : list event),
      vad_state_machine_process (Some speech_end_example) 0 CFloat.zero
        = (current_state sm', Some sm', t)
      /\ current_state sm' = VAD_STATE_SILENCE)
  /\ (exists (sm' : vad_state_machine) (t : list event),
        vad_state_machine_process (Some speech_end_quick_example) 1 CFloat.zero
          = (current_state sm', Some sm', t)
        /\ speech_frame_count sm' = 1
        /\ current_state sm' = VAD_STATE_SPEECH_START).
Proof.
  split.
  - destruct (speech_end_lasts_one_frame speech_end_example 0 CFloat.zero eq_refl)
      as (sm' & t & Hcall & _ & _ & Htarget & _).
    exists sm', t. split; [exact Hcall | exact Htarget].
  - destruct (speech_end_lasts_one_frame speech_end_quick_example 1 CFloat.zero
                eq_refl)
      as (sm' & t & Hcall & Hcount & _ & Htarget & _).
    exists sm', t. split; [exact Hcall|]. split; [exact Hcount | exact Htarget].
Defined.

(** ** Transitions and the callback (C10) *)

(** C10. During one call of [vad_state_machine_process] the state changes
    at most once (exactly when the call leaves a state other than the one
    it found) and the callback is invoked at most once; every invocation
    passes two different states, the state found and the state left, and
    [previous_state] then holds the state found. *)
Theorem one_transition_per_call :
  forall (sm : vad_state_machine) (vad_flag : Z) (probability : float),
  exists (sm' : vad_state_machine) (t : list event),
    vad_state_machine_process (Some sm) vad_flag probability
      = (current_state sm', Some sm', t)
    /\ (transition_count t <= 1)%nat
    /\ transition_count t
       = (if vad_state_eqb (current_state sm) (current_state sm')
          then 0%nat else 1%nat)
    /\ (callback_count t <= 1)%nat
    /\ Forall (callback_sound sm sm') t.
Proof.
  intros sm vad_flag probability.
  exists (snd (fst (process_frame vad_flag probability sm))),
         (snd (process_frame vad_flag probability sm)).
  destruct sm as [cfg hop rate fd st prev sp si tot csf ssf lsf fn data].
  sm_unfold. destruct st; sm_run; cbv beta iota delta [fst snd];
    unfold transition_count, callback_count;
    cbn [filter is_printf is_callback List.length];
    repeat match goal with
      | |- _ /\ _ => split
      | |- Forall _ [] => apply Forall_nil
      | |- Forall _ (_ :: _) => apply Forall_cons
      | |- callback_sound _ _ _ => cbn [callback_sound current_state
                                         previous_state callback user_data]
      | |- True => exact I
      | |- _ <> _ => discriminate
      | |- _ = _ => reflexivity
      | |- (_ <= _)%nat => lia
      end.
Qed.

(** * Further properties of the code *)

(** ** What one call does to the counters, the events and the states *)

Lemma process_frame_counters :
  forall sm vad_flag probability,
    let sm' := snd (fst (process_frame vad_flag probability sm)) in
    total_frame_count sm' = CInt.incr (total_frame_count sm)
    /\ speech_frame_count sm'
       = (if voiced vad_flag then CInt.incr (speech_frame_count sm) else 0)
    /\ silence_frame_count sm'
       = (if voiced vad_flag then 0 else CInt.incr (silence_frame_count sm))
    /\ last_speech_frame sm'
       = (if voiced vad_flag then CInt.incr (total_frame_count sm)
          else last_speech_frame sm).
Proof.
  intros [cfg hop rate fd st prev sp si tot csf ssf lsf fn data] vad_flag probability.
  sm_unfold. destruct st; sm_run; repeat split; reflexivity.
Qed.

Lemma process_frame_events :
  forall sm vad_flag probability,
    let sm' := snd (fst (process_frame vad_flag probability sm)) in
    snd (process_frame vad_flag probability sm)
    = if vad_state_eqb (current_state sm) (current_state sm') then []
      else (if is_null (callback sm) then []
            else [EvCallback (callback sm) (current_state sm)
                             (current_state sm') (user_data sm)])
           ++ [EvPrintf (vad_state_get_name (current_state sm))
                        (vad_state_get_name (current_state sm'))
                        (total_frame_count sm')].
Proof.
  intros [cfg hop rate fd st prev sp si tot csf ssf lsf fn data] vad_flag probability.
  sm_unfold. destruct st; sm_run; first [reflexivity | congruence].
Qed.

Lemma process_frame_edge :
  forall sm vad_flag probability,
    let sm' := snd (fst (process_frame vad_flag probability sm)) in
    (current_state sm' = current_state sm
     /\ previous_state sm' = previous_state sm)
    \/ (previous_state sm' = current_state sm
        /\ transition_edge (current_state sm) (current_state sm') = true).
Proof.
  intros [cfg hop rate fd st prev sp si tot csf ssf lsf fn data] vad_flag probability.
  sm_unfold. destruct st; sm_run;
    solve [ left; split; reflexivity | right; split; reflexivity ].
Qed.

Lemma process_frame_onset :
  forall sm vad_flag probability,
    let sm' := snd (fst (process_frame vad_flag probability sm)) in
    current_state sm <> VAD_STATE_SPEECH_START ->
    current_state sm' = VAD_STATE_SPEECH_START ->
    speech_start_frames (config sm) <= speech_frame_count sm'
    /\ speech_start_frame sm'
       = CInt.add (CInt.sub (total_frame_count sm') (speech_frame_count sm')) 1.
Proof.
  intros [cfg hop rate fd st prev sp si tot csf ssf lsf fn data] vad_flag probability.
  sm_unfold. destruct st; sm_run; intros Hbefore Hafter;
    try discriminate; try congruence;
    (split; [apply Z.leb_le; assumption | reflexivity]).
Qed.

(** ** Induction along a run *)

(** A property of the struct that holds at the start and survives every
    call holds after every run. *)
Lemma process_all_ind :
  forall (P : list frame -> vad_state_machine -> Prop) (sm0 : vad_state_machine),
    P [] sm0 ->
    (forall frames sm vad_flag probability,
        final_handle (process_all (Some sm0) frames) = Some sm ->
        P frames sm ->
        P (frames ++ [(vad_flag, probability)])
          (snd (fst (process_frame vad_flag probability sm)))) ->
    forall frames,
    exists sm,
      final_handle (process_all (Some sm0) frames) = Some sm /\ P frames sm.
Proof.
  intros P sm0 Hbase Hstep frames.
  induction frames as [|[f p] frames IH] using rev_ind.
  - exists sm0. split; [reflexivity | exact Hbase].
  - destruct IH as (sm & Hfin & HP).
    exists (snd (fst (process_frame f p sm))). split.
    + rewrite final_handle_snoc, Hfin, process_valid_handle. reflexivity.
    + apply Hstep; assumption.
Qed.

Lemma voiced_run_le :
  forall recent, (voiced_run recent <= List.length recent)%nat.
Proof.
  induction recent as [|[f p] earlier IH]; cbn; [lia|].
  destruct (voiced f); lia.
Qed.

Lemma silent_run_le :
  forall recent, (silent_run recent <= List.length recent)%nat.
Proof.
  induction recent as [|[f p] earlier IH]; cbn; [lia|].
  destruct (voiced f); lia.
Qed.

Lemma last_voiced_index_bounds :
  forall recent, -1 <= last_voiced_index recent <= Z.of_nat (List.length recent).
Proof.
  induction recent as [|[f p] earlier IH]; cbn [last_voiced_index List.length];
    [lia|].
  destruct (voiced f); lia.
Qed.

(** The counters of a fresh classifier after a run, as 32-bit integers. *)
Lemma counters_wrap :
  forall cfg hop rate fn data frames,
  exists sm,
    final_handle (process_all (Some (fresh cfg hop rate fn data)) frames) = Some sm
    /\ (total_frame_count sm = CInt.wrap (Z.of_nat (List.length frames))
        /\ speech_frame_count sm
           = CInt.wrap (Z.of_nat (voiced_run (rev frames)))
        /\ silence_frame_count sm
           = CInt.wrap (Z.of_nat (silent_run (rev frames)))
        /\ last_speech_frame sm = CInt.wrap (last_voiced_index (rev frames))).
Proof.
  intros cfg hop rate fn data.
  apply process_all_ind.
  - repeat split; reflexivity.
  - intros frames sm f p _ (Ht & Hsp & Hsi & Hl).
    destruct (process_frame_counters sm f p) as (Ht' & Hsp' & Hsi' & Hl').
    cbv zeta in *. rewrite Ht', Hsp', Hsi', Hl', Ht, Hsp, Hsi, Hl.
    rewrite rev_unit. cbn [voiced_run silent_run last_voiced_index].
    rewrite !wrap_succ, length_app. cbn [List.length].
    rewrite length_rev.
    repeat split.
    + rewrite Nat.add_1_r, Nat2Z.inj_succ. reflexivity.
    + destruct (voiced f); [rewrite Nat2Z.inj_succ|]; reflexivity.
    + destruct (voiced f); [|rewrite Nat2Z.inj_succ]; reflexivity.
    + destruct (voiced f); [rewrite Nat2Z.inj_succ|]; reflexivity.
Qed.

(** ** The counters along a run *)

(** X1. After a run of at most 2^31 - 1 calls on a freshly constructed
    classifier, [total_frame_count] is the number of calls made. *)
Theorem total_frame_count_counts_calls :
  forall (cfg : option vad_state_config_t) (hop rate : Z) (fn data : pointer)
         (frames : list frame),
    Z.of_nat (List.length frames) <= CInt.INT_MAX ->
    exists sm,
      final_handle
        (process_all (vad_state_machine_create true cfg hop rate fn data) frames)
      = Some sm
      /\ total_frame_count sm = Z.of_nat (List.length frames).
Proof.
  intros cfg hop rate fn data frames Hlen.
  destruct (counters_wrap cfg hop rate fn data frames)
    as (sm & Hfin & Ht & _).
  exists sm. split; [exact Hfin|].
  rewrite Ht. apply wrap_in_range.
  unfold CInt.in_range, CInt.INT_MIN, CInt.INT_MAX in *. lia.
Qed.

(** Three frames under the default configuration. *)
Lemma total_frame_count_counts_calls_witness :
  exists sm,
    final_handle
      (process_all (vad_state_machine_create true None 256 16000 NULL NULL)
         [(1, CFloat.zero); (0, CFloat.zero); (1, CFloat.zero)])
    = Some sm
    /\ total_frame_count sm = 3.
Proof.
  apply (total_frame_count_counts_calls None 256 16000 NULL NULL
           [(1, CFloat.zero); (0, CFloat.zero); (1, CFloat.zero)]).
  vm_compute. discriminate.
Defined.

(** X2. After such a run [speech_frame_count] is the length of the run of
    voiced frames the stream ends with, and [silence_frame_count] the
    length of the run of silent frames it ends with. *)
Theorem run_counters_are_run_lengths :
  forall (cfg : option vad_state_config_t) (hop rate : Z) (fn data : pointer)
         (frames : list frame),
    Z.of_nat (List.length frames) <= CInt.INT_MAX ->
    exists sm,
      final_handle
        (process_all (vad_state_machine_create true cfg hop rate fn data) frames)
      = Some sm
      /\ speech_frame_count sm = Z.of_nat (voiced_run (rev frames))
      /\ silence_frame_count sm = Z.of_nat (silent_run (rev frames)).
Proof.
  intros cfg hop rate fn data frames Hlen.
  destruct (counters_wrap cfg hop rate fn data frames)
    as (sm & Hfin & _ & Hsp & Hsi & _).
  exists sm. split; [exact Hfin|].
  pose proof (voiced_run_le (rev frames)) as Hv.
  pose proof (silent_run_le (rev frames)) as Hs.
  rewrite length_rev in Hv, Hs.
  rewrite Hsp, Hsi.
  split; apply wrap_in_range;
    unfold CInt.in_range, CInt.INT_MIN, CInt.INT_MAX in *; lia.
Qed.

(** A silent frame and two voiced ones. *)
Lemma run_counters_are_run_lengths_witness :
  exists sm,
    final_handle
      (process_all (vad_state_machine_create true None 256 16000 NULL NULL)
         [(0, CFloat.zero); (1, CFloat.zero); (1, CFloat.zero)])
    = Some sm
    /\ speech_frame_count sm = 2
    /\ silence_frame_count sm = 0.
Proof.
  apply (run_counters_are_run_lengths None 256 16000 NULL NULL
           [(0, CFloat.zero); (1, CFloat.zero); (1, CFloat.zero)]).
  vm_compute. discriminate.
Defined.

(** X3. After such a run [last_speech_frame] is the position of the last
    voiced frame, counted from 1, and still [-1] when no frame was voiced. *)
Theorem last_speech_frame_is_last_voiced :
  forall (cfg : option vad_state_config_t) (hop rate : Z) (fn data : pointer)
         (frames : list frame),
    Z.of_nat (List.length frames) <= CInt.INT_MAX ->
    exists sm,
      final_handle
        (process_all (vad_state_machine_create true cfg hop rate fn data) frames)
      = Some sm
      /\ last_speech_frame sm = last_voiced_index (rev frames).
Proof.
  intros cfg hop rate fn data frames Hlen.
  destruct (counters_wrap cfg hop rate fn data frames)
    as (sm & Hfin & _ & _ & _ & Hl).
  exists sm. split; [exact Hfin|].
  pose proof (last_voiced_index_bounds (rev frames)) as Hb.
  rewrite length_rev in Hb.
  rewrite Hl. apply wrap_in_range.
  unfold CInt.in_range, CInt.INT_MIN, CInt.INT_MAX in *. lia.
Qed.

(** The second of three frames is the last voiced one. *)
Lemma last_speech_frame_is_last_voiced_witness :
  exists sm,
    final_handle
      (process_all (vad_state_machine_create true None 256 16000 NULL NULL)
         [(0, CFloat.zero); (1, CFloat.zero); (0, CFloat.zero)])
    = Some sm
    /\ last_speech_frame sm = 2.
Proof.
  apply (last_speech_frame_is_last_voiced None 256 16000 NULL NULL
           [(0, CFloat.zero); (1, CFloat.zero); (0, CFloat.zero)]).
  vm_compute. discriminate.
Defined.

(** ** The onset of speech *)

(** The struct before and after the last call of a run on a fresh
    classifier, with the counters the last call leaves. *)
Lemma last_call_of_run :
  forall cfg hop rate fn data frames vad_flag probability,
    Z.of_nat (List.length frames) < CInt.INT_MAX ->
    exists sm,
      final_handle (process_all (Some (fresh cfg hop rate fn data)) frames)
      = Some sm
      /\ config sm = config (fresh cfg hop rate fn data)
      /\ final_handle
           (process_all (Some (fresh cfg hop rate fn data))
              (frames ++ [(vad_flag, probability)]))
         = Some (snd (fst (process_frame vad_flag probability sm)))
      /\ total_frame_count (snd (fst (process_frame vad_flag probability sm)))
         = Z.of_nat (List.length frames) + 1
      /\ speech_frame_count (snd (fst (process_frame vad_flag probability sm)))
         = Z.of_nat (voiced_run (rev (frames ++ [(vad_flag, probability)]))).
Proof.
  intros cfg hop rate fn data frames f p Hlen.
  destruct (counters_wrap cfg hop rate fn data frames)
    as (sm & Hfin & Ht & Hsp & _).
  destruct (process_all_constants frames (fresh cfg hop rate fn data))
    as (sm1 & Hfin1 & Hc & _).
  rewrite Hfin in Hfin1. injection Hfin1 as <-.
  exists sm. split; [exact Hfin|]. split; [exact Hc|].
  split; [rewrite final_handle_snoc, Hfin, process_valid_handle; reflexivity|].
  destruct (process_frame_counters sm f p) as (Ht' & Hsp' & _).
  cbv zeta in Ht', Hsp'. rewrite Ht', Hsp', Ht, Hsp, rev_unit.
  cbn [voiced_run].
  pose proof (voiced_run_le (rev frames)) as Hv. rewrite length_rev in Hv.
  unfold CInt.INT_MAX in Hlen.
  rewrite !wrap_succ. split.
  - apply wrap_in_range. unfold CInt.in_range, CInt.INT_MIN, CInt.INT_MAX. lia.
  - destruct (voiced f); [|reflexivity].
    rewrite Nat2Z.inj_succ. apply wrap_in_range.
    unfold CInt.in_range, CInt.INT_MIN, CInt.INT_MAX, frame in *. lia.
Qed.

(** X4. Hysteresis at the onset: when a call takes a classifier that was
    not in [SPEECH_START] into [SPEECH_START], the stream processed so
    far, that call's frame included, ends with at least
    [speech_start_frames] voiced frames in a row. *)
Theorem onset_needs_voiced_run :
  forall (cfg : option vad_state_config_t) (hop rate : Z) (fn data : pointer)
         (frames : list frame) (vad_flag : Z) (probability : float),
    Z.of_nat (List.length frames) < CInt.INT_MAX ->
    let h0 := vad_state_machine_create true cfg hop rate fn data in
    vad_state_machine_get_current_state
      (final_handle (process_all h0 frames)) <> VAD_STATE_SPEECH_START ->
    vad_state_machine_get_current_state
      (final_handle (process_all h0 (frames ++ [(vad_flag, probability)])))
    = VAD_STATE_SPEECH_START ->
    speech_start_frames (config (fresh cfg hop rate fn data))
    <= Z.of_nat (voiced_run (rev (frames ++ [(vad_flag, probability)]))).
Proof.
  intros cfg hop rate fn data frames f p Hlen h0 Hbefore Hafter.
  destruct (last_call_of_run cfg hop rate fn data frames f p Hlen)
    as (sm & Hfin & Hc & Hfin' & _ & Hsp).
  unfold h0, vad_state_machine_create in Hbefore, Hafter.
  rewrite Hfin in Hbefore. rewrite Hfin' in Hafter.
  cbn [vad_state_machine_get_current_state] in Hbefore, Hafter.
  destruct (process_frame_onset sm f p Hbefore Hafter) as (Hge & _).
  rewrite <- Hc, <- Hsp. exact Hge.
Qed.

(** A silent frame and three voiced ones: the fourth call is the onset. *)
Lemma onset_needs_voiced_run_witness :
  speech_start_frames (config (fresh None 256 16000 NULL NULL))
  <= Z.of_nat (voiced_run (rev ([(0, CFloat.zero); (1, CFloat.zero); (1, CFloat.zero)]
                                 ++ [(1, CFloat.zero)]))).
Proof.
  apply (onset_needs_voiced_run None 256 16000 NULL NULL
           [(0, CFloat.zero); (1, CFloat.zero); (1, CFloat.zero)] 1 CFloat.zero).
  - vm_compute. reflexivity.
  - vm_compute. discriminate.
  - vm_compute. reflexivity.
Defined.

(** X5. On a call that enters [SPEECH_START], [speech_start_frame] is set
    to the position, counted from 1, of the first frame of the run of
    voiced frames the stream ends with. *)
Theorem speech_start_frame_is_run_start :
  forall (cfg : option vad_state_config_t) (hop rate : Z) (fn data : pointer)
         (frames : list frame) (vad_flag : Z) (probability : float),
    Z.of_nat (List.length frames) + 1 < CInt.INT_MAX ->
    let h0 := vad_state_machine_create true cfg hop rate fn data in
    vad_state_machine_get_current_state
      (final_handle (process_all h0 frames)) <> VAD_STATE_SPEECH_START ->
    vad_state_machine_get_current_state
      (final_handle (process_all h0 (frames ++ [(vad_flag, probability)])))
    = VAD_STATE_SPEECH_START ->
    exists sm,
      final_handle (process_all h0 (frames ++ [(vad_flag, probability)]))
      = Some sm
      /\ speech_start_frame sm
         = Z.of_nat (List.length (frames ++ [(vad_flag, probability)]))
           - Z.of_nat (voiced_run (rev (frames ++ [(vad_flag, probability)])))
           + 1.
Proof.
  intros cfg hop rate fn data frames f p Hlen h0 Hbefore Hafter.
  assert (Hlen' : Z.of_nat (List.length frames) < CInt.INT_MAX) by lia.
  destruct (last_call_of_run cfg hop rate fn data frames f p Hlen')
    as (sm & Hfin & Hc & Hfin' & Ht & Hsp).
  unfold h0, vad_state_machine_create in *.
  rewrite Hfin in Hbefore. rewrite Hfin' in Hafter.
  cbn [vad_state_machine_get_current_state] in Hbefore, Hafter.
  destruct (process_frame_onset sm f p Hbefore Hafter) as (_ & Hssf).
  exists (snd (fst (process_frame f p sm))). split; [exact Hfin'|].
  rewrite Hssf, Ht, Hsp.
  pose proof (voiced_run_le (rev (frames ++ [(f, p)]))) as Hv.
  rewrite length_rev in Hv. rewrite length_app in *. cbn [List.length] in *.
  unfold CInt.INT_MAX in Hlen.
  unfold CInt.add, CInt.sub.
  rewrite (wrap_in_range (_ - _));
    [ rewrite wrap_in_range | ];
    unfold CInt.in_range, CInt.INT_MIN, CInt.INT_MAX, frame in *; lia.
Qed.

(** The voiced run of that stream starts at frame 2. *)
Lemma speech_start_frame_is_run_start_witness :
  exists sm,
    final_handle
      (process_all (vad_state_machine_create true None 256 16000 NULL NULL)
         ([(0, CFloat.zero); (1, CFloat.zero); (1, CFloat.zero)]
            ++ [(1, CFloat.zero)]))
    = Some sm
    /\ speech_start_frame sm = 2.
Proof.
  apply (speech_start_frame_is_run_start None 256 16000 NULL NULL
           [(0, CFloat.zero); (1, CFloat.zero); (1, CFloat.zero)] 1 CFloat.zero).
  - vm_compute. reflexivity.
  - vm_compute. discriminate.
  - vm_compute. reflexivity.
Defined.

(** ** What an observer sees *)

(** The first call of a run on a valid handle, and the rest of the run. *)
Lemma process_all_cons_valid :
  forall sm vad_flag probability rest,
    process_all (Some sm) ((vad_flag, probability) :: rest)
    = (final_handle
         (process_all (Some (snd (fst (process_frame vad_flag probability sm)))) rest),
       current_state (snd (fst (process_frame vad_flag probability sm)))
         :: returned_states
              (process_all (Some (snd (fst (process_frame vad_flag probability sm)))) rest),
       snd (process_frame vad_flag probability sm)
         ++ all_events
              (process_all (Some (snd (fst (process_frame vad_flag probability sm)))) rest)).
Proof.
  intros sm f p rest. cbn [process_all].
  rewrite process_valid_handle, process_frame_returns_state.
  destruct (process_all (Some (snd (fst (process_frame f p sm)))) rest)
    as [[h2 rs] t2].
  reflexivity.
Qed.

Lemma returned_states_cons :
  forall sm vad_flag probability rest,
    returned_states (process_all (Some sm) ((vad_flag, probability) :: rest))
    = current_state (snd (fst (process_frame vad_flag probability sm)))
        :: returned_states
             (process_all (Some (snd (fst (process_frame vad_flag probability sm)))) rest).
Proof. intros. rewrite process_all_cons_valid. reflexivity. Qed.

Lemma all_events_cons :
  forall sm vad_flag probability rest,
    all_events (process_all (Some sm) ((vad_flag, probability) :: rest))
    = snd (process_frame vad_flag probability sm)
        ++ all_events
             (process_all (Some (snd (fst (process_frame vad_flag probability sm)))) rest).
Proof. intros. rewrite process_all_cons_valid. reflexivity. Qed.

Lemma final_handle_cons :
  forall sm vad_flag probability rest,
    final_handle (process_all (Some sm) ((vad_flag, probability) :: rest))
    = final_handle
        (process_all (Some (snd (fst (process_frame vad_flag probability sm)))) rest).
Proof. intros. rewrite process_all_cons_valid. reflexivity. Qed.

(** X6. Along a run on a valid handle the callback is invoked exactly once
    for every change of the returned state, in order, with the state left,
    the state entered and the registered [user_data], and never when the
    callback pointer is null; the [printf] line is printed for every
    change, with the names of the two states. *)
Theorem events_report_every_state_change :
  forall (sm0 : vad_state_machine) (frames : list frame),
    let run := process_all (Some sm0) frames in
    let changes := state_changes (current_state sm0) (returned_states run) in
    filter is_callback (all_events run)
    = (if is_null (callback sm0) then []
       else map (fun c => EvCallback (callback sm0) (fst c) (snd c) (user_data sm0))
                changes)
    /\ printed_names (all_events run)
       = map (fun c => (vad_state_get_name (fst c), vad_state_get_name (snd c)))
             changes.
Proof.
  intros sm0 frames. cbv zeta. revert sm0.
  induction frames as [|[f p] rest IH]; intros sm0.
  - cbn. destruct (is_null (callback sm0)); split; reflexivity.
  - rewrite returned_states_cons, all_events_cons. cbn [state_changes].
    destruct (process_frame_constants sm0 f p) as (_ & _ & _ & _ & Hcb & Hu).
    cbv zeta in Hcb, Hu.
    destruct (IH (snd (fst (process_frame f p sm0)))) as (IHc & IHp).
    rewrite Hcb, Hu in IHc.
    unfold printed_names in *. rewrite filter_app, flat_map_app, IHc, IHp.
    rewrite process_frame_events. cbv zeta.
    destruct (vad_state_eqb (current_state sm0)
                (current_state (snd (fst (process_frame f p sm0))))).
    + split; reflexivity.
    + destruct (is_null (callback sm0)); split; reflexivity.
Qed.

(** ** The state diagram *)

(** X7. From any struct, every change of state along a run is one of the
    nine arrows of the state diagram: there is, for instance, no move
    from [SILENCE] to [SPEECH_CONTINUE] and none from [SPEECH_CONTINUE] to
    [SILENCE]. *)
Theorem state_changes_follow_diagram :
  forall (sm0 : vad_state_machine) (frames : list frame),
    Forall (fun c => transition_edge (fst c) (snd c) = true)
      (state_changes (current_state sm0)
         (returned_states (process_all (Some sm0) frames))).
Proof.
  intros sm0 frames. revert sm0.
  induction frames as [|[f p] rest IH]; intros sm0.
  - constructor.
  - rewrite returned_states_cons. cbn [state_changes].
    specialize (IH (snd (fst (process_frame f p sm0)))).
    destruct (process_frame_edge sm0 f p) as [[Hs _]|[_ He]]; cbv zeta in *.
    + rewrite Hs.
      replace (vad_state_eqb (current_state sm0) (current_state sm0)) with true
        by (symmetry; apply vad_state_eqb_eq; reflexivity).
      rewrite <- Hs. exact IH.
    + destruct (vad_state_eqb _ _); [exact IH|].
      constructor; [exact He | exact IH].
Qed.

(** X8. After any run on a freshly constructed classifier,
    [previous_state] and [current_state] are both [SILENCE] or are joined
    by an arrow of the state diagram. *)
Theorem previous_state_is_predecessor :
  forall (cfg : option vad_state_config_t) (hop rate : Z) (fn data : pointer)
         (frames : list frame),
  exists sm,
    final_handle
      (process_all (vad_state_machine_create true cfg hop rate fn data) frames)
    = Some sm
    /\ ((previous_state sm = VAD_STATE_SILENCE
         /\ current_state sm = VAD_STATE_SILENCE)
        \/ transition_edge (previous_state sm) (current_state sm) = true).
Proof.
  intros cfg hop rate fn data.
  apply process_all_ind.
  - left. split; reflexivity.
  - intros frames sm f p _ HP.
    destruct (process_frame_edge sm f p) as [[Hs Hp]|[Hp He]]; cbv zeta in *.
    + rewrite Hs, Hp. exact HP.
    + right. rewrite Hp. exact He.
Qed.

(** ** Silence *)

Lemma process_frame_stays_silent :
  forall sm vad_flag probability,
    current_state sm = VAD_STATE_SILENCE ->
    1 <= speech_start_frames (config sm) ->
    voiced vad_flag = false ->
    current_state (snd (fst (process_frame vad_flag probability sm)))
    = VAD_STATE_SILENCE
    /\ snd (process_frame vad_flag probability sm) = [].
Proof.
  intros [cfg hop rate fd st prev sp si tot csf ssf lsf fn data] f p Hst Hcfg Hv.
  cbn [current_state config] in Hst, Hcfg. subst st.
  sm_unfold. rewrite Hv. sm_run;
    try match goal with H : (_ <=? _) = true |- _ => apply Z.leb_le in H; lia end.
  split; reflexivity.
Qed.

(** X9. A classifier in [SILENCE] whose [speech_start_frames] is at least 1
    stays in [SILENCE] through any number of silent frames: every call
    returns [SILENCE], no callback is invoked and nothing is printed. *)
Theorem silent_frames_keep_silence :
  forall (sm0 : vad_state_machine) (frames : list frame),
    current_state sm0 = VAD_STATE_SILENCE ->
    1 <= speech_start_frames (config sm0) ->
    Forall (fun fr => voiced (fst fr) = false) frames ->
    let run := process_all (Some sm0) frames in
    returned_states run = repeat VAD_STATE_SILENCE (List.length frames)
    /\ all_events run = []
    /\ vad_state_machine_get_current_state (final_handle run) = VAD_STATE_SILENCE.
Proof.
  intros sm0 frames. cbv zeta. revert sm0.
  induction frames as [|[f p] rest IH]; intros sm0 Hst Hcfg Hall.
  - cbn. repeat split; try reflexivity. exact Hst.
  - inversion Hall as [|fr frs Hv Hrest]; subst. cbn [fst] in Hv.
    destruct (process_frame_stays_silent sm0 f p Hst Hcfg Hv) as (Hst' & Hev).
    destruct (process_frame_constants sm0 f p) as (Hc & _). cbv zeta in Hc.
    rewrite returned_states_cons, all_events_cons, final_handle_cons.
    destruct (IH (snd (fst (process_frame f p sm0)))) as (IHr & IHe & IHs);
      [exact Hst' | rewrite Hc; exact Hcfg | exact Hrest |].
    rewrite IHr, IHe, IHs, Hst', Hev. repeat split; reflexivity.
Qed.

(** Two silent frames on a fresh classifier. *)
Lemma silent_frames_keep_silence_witness :
  returned_states
    (process_all (Some (fresh None 256 16000 NULL NULL))
       [(0, CFloat.zero); (0, CFloat.zero)])
  = repeat VAD_STATE_SILENCE 2
  /\ all_events
       (process_all (Some (fresh None 256 16000 NULL NULL))
          [(0, CFloat.zero); (0, CFloat.zero)]) = []
  /\ vad_state_machine_get_current_state
       (final_handle
          (process_all (Some (fresh None 256 16000 NULL NULL))
             [(0, CFloat.zero); (0, CFloat.zero)])) = VAD_STATE_SILENCE.
Proof.
  apply (silent_frames_keep_silence (fresh None 256 16000 NULL NULL)
           [(0, CFloat.zero); (0, CFloat.zero)]).
  - reflexivity.
  - vm_compute. discriminate.
  - repeat constructor.
Defined.

(** ** A threshold that is not positive *)

(** X11. The configuration is not validated: with [speech_start_frames]
    zero or negative, the first call on a fresh classifier returns
    [SPEECH_START] whatever the frame, a silent one included. *)
Theorem nonpositive_threshold_starts_at_once :
  forall (cfg : vad_state_config_t) (hop rate : Z) (fn data : pointer)
         (vad_flag : Z) (probability : float),
    speech_start_frames cfg <= 0 ->
    fst (fst (vad_state_machine_process
                (vad_state_machine_create true (Some cfg) hop rate fn data)
                vad_flag probability))
    = VAD_STATE_SPEECH_START.
Proof.
  intros cfg hop rate fn data f p Hcfg.
  unfold vad_state_machine_create. rewrite process_valid_handle.
  unfold fresh. cbn [fst]. sm_unfold.
  sm_run; try reflexivity;
    match goal with
    | H : (_ <=? _) = false |- _ =>
        apply Z.leb_gt in H; change (CInt.incr 0) with 1 in H; lia
    end.
Qed.

(** A threshold of zero and a silent frame. *)
Lemma nonpositive_threshold_starts_at_once_witness :
  fst (fst (vad_state_machine_process
              (vad_state_machine_create true
                 (Some (mk_config 0 10 5 2 (CFloat.of_Z 200) (CFloat.of_Z 1000)))
                 256 16000 NULL NULL)
              0 CFloat.zero))
  = VAD_STATE_SPEECH_START.
Proof.
  apply (nonpositive_threshold_starts_at_once
           (mk_config 0 10 5 2 (CFloat.of_Z 200) (CFloat.of_Z 1000))
           256 16000 NULL NULL 0 CFloat.zero).
  vm_compute. discriminate.
Defined.

(** ** Ongoing speech *)

Lemma process_frame_stays_continue :
  forall sm vad_flag probability,
    current_state sm = VAD_STATE_SPEECH_CONTINUE ->
    1 <= pause_frames (config sm) ->
    voiced vad_flag = true ->
    current_state (snd (fst (process_frame vad_flag probability sm)))
    = VAD_STATE_SPEECH_CONTINUE
    /\ snd (process_frame vad_flag probability sm) = [].
Proof.
  intros [cfg hop rate fd st prev sp si tot csf ssf lsf fn data] f p Hst Hcfg Hv.
  cbn [current_state config] in Hst, Hcfg. subst st.
  sm_unfold. rewrite Hv. sm_run;
    try match goal with H : (_ <=? _) = true |- _ => apply Z.leb_le in H; lia end.
  split; reflexivity.
Qed.

(** X10. A classifier in [SPEECH_CONTINUE] whose [pause_frames] is at least
    1 stays in [SPEECH_CONTINUE] through any number of voiced frames, with
    no callback and nothing printed. *)
Theorem voiced_frames_keep_speech :
  forall (sm0 : vad_state_machine) (frames : list frame),
    current_state sm0 = VAD_STATE_SPEECH_CONTINUE ->
    1 <= pause_frames (config sm0) ->
    Forall (fun fr => voiced (fst fr) = true) frames ->
    let run := process_all (Some sm0) frames in
    returned_states run = repeat VAD_STATE_SPEECH_CONTINUE (List.length frames)
    /\ all_events run = []
    /\ vad_state_machine_get_current_state (final_handle run)
       = VAD_STATE_SPEECH_CONTINUE.
Proof.
  intros sm0 frames. cbv zeta. revert sm0.
  induction frames as [|[f p] rest IH]; intros sm0 Hst Hcfg Hall.
  - cbn. repeat split; try reflexivity. exact Hst.
  - inversion Hall as [|fr frs Hv Hrest]; subst. cbn [fst] in Hv.
    destruct (process_frame_stays_continue sm0 f p Hst Hcfg Hv) as (Hst' & Hev).
    destruct (process_frame_constants sm0 f p) as (Hc & _). cbv zeta in Hc.
    rewrite returned_states_cons, all_events_cons, final_handle_cons.
    destruct (IH (snd (fst (process_frame f p sm0)))) as (IHr & IHe & IHs);
      [exact Hst' | rewrite Hc; exact Hcfg | exact Hrest |].
    rewrite IHr, IHe, IHs, Hst', Hev. repeat split; reflexivity.
Qed.

(** [ongoing_speech_example] is reached as its description says. *)
Example ongoing_speech_example_reached :
  final_handle
    (process_all (vad_state_machine_create true None 256 16000 NULL NULL)
       [(1, CFloat.zero); (1, CFloat.zero); (1, CFloat.zero); (1, CFloat.zero)])
  = Some ongoing_speech_example.
Proof. vm_compute. reflexivity. Qed.

(** Two more voiced frames on [ongoing_speech_example]. *)
Lemma voiced_frames_keep_speech_witness :
  returned_states
    (process_all
       (Some ongoing_speech_example)
       [(1, CFloat.zero); (1, CFloat.zero)])
  = repeat VAD_STATE_SPEECH_CONTINUE 2
  /\ all_events
       (process_all
          (Some ongoing_speech_example)
          [(1, CFloat.zero); (1, CFloat.zero)]) = []
  /\ vad_state_machine_get_current_state
       (final_handle
          (process_all
             (Some ongoing_speech_example)
             [(1, CFloat.zero); (1, CFloat.zero)]))
     = VAD_STATE_SPEECH_CONTINUE.
Proof.
  apply (voiced_frames_keep_speech
           ongoing_speech_example
           [(1, CFloat.zero); (1, CFloat.zero)]).
  - reflexivity.
  - vm_compute. discriminate.
  - repeat constructor.
Defined.

(** ** Not-a-number durations *)

Lemma mul_nan_r : forall x, CFloat.mul x S754_nan = S754_nan.
Proof. intros []; reflexivity. Qed.

Lemma lt_nan_l : forall y, CFloat.lt S754_nan y = false.
Proof. intros []; reflexivity. Qed.

Lemma lt_nan_r : forall x, CFloat.lt x S754_nan = false.
Proof. intros []; reflexivity. Qed.

Lemma ge_nan_l : forall y, CFloat.ge S754_nan y = false.
Proof. intros []; reflexivity. Qed.

Lemma ge_nan_r : forall x, CFloat.ge x S754_nan = false.
Proof. intros []; reflexivity. Qed.

(** [nan_onset_example] and [nan_pause_example] are reached as their
    descriptions say. *)
Example nan_examples_reached :
  final_handle
    (process_all (vad_state_machine_create true None 0 0 NULL NULL)
       [(1, CFloat.zero); (1, CFloat.zero); (1, CFloat.zero);
        (0, CFloat.zero); (0, CFloat.zero); (0, CFloat.zero);
        (0, CFloat.zero); (0, CFloat.zero); (0, CFloat.zero);
        (0, CFloat.zero); (0, CFloat.zero); (0, CFloat.zero)])
  = Some nan_onset_example
  /\ final_handle
       (process_all (vad_state_machine_create true None 0 0 NULL NULL)
          [(1, CFloat.zero); (1, CFloat.zero); (1, CFloat.zero);
           (1, CFloat.zero); (0, CFloat.zero); (0, CFloat.zero);
           (0, CFloat.zero); (0, CFloat.zero); (0, CFloat.zero)])
     = Some nan_pause_example.
Proof. split; vm_compute; reflexivity. Qed.

(** X12. When the frame duration or [min_speech_duration_ms] is a NaN, the
    test [speech_duration < min_speech_duration_ms] is false: a classifier
    in [SPEECH_START] never falls back to [SILENCE], and the silent frame
    that reaches [speech_end_frames] moves it to [SPEECH_END]. *)
Theorem nan_duration_disables_rejection :
  forall (sm : vad_state_machine) (vad_flag : Z) (probability : float),
    frame_duration_ms sm = S754_nan
    \/ min_speech_duration_ms (config sm) = S754_nan ->
    current_state sm = VAD_STATE_SPEECH_START ->
    let returned :=
      fst (fst (vad_state_machine_process (Some sm) vad_flag probability)) in
    returned <> VAD_STATE_SILENCE
    /\ (voiced vad_flag = false ->
        speech_end_frames (config sm) <= CInt.incr (silence_frame_count sm) ->
        returned = VAD_STATE_SPEECH_END).
Proof.
  intros [cfg hop rate fd st prev sp si tot csf ssf lsf fn data] f p Hnan Hst.
  cbn [frame_duration_ms config current_state] in Hnan, Hst. subst st.
  assert (Hlt : CFloat.lt (CFloat.mul (CFloat.of_Z (CInt.incr csf)) fd)
                  (min_speech_duration_ms cfg) = false).
  { destruct Hnan as [-> | ->]; [rewrite mul_nan_r; apply lt_nan_l | apply lt_nan_r]. }
  rewrite process_valid_handle. cbv zeta. cbn [fst].
  sm_unfold. sm_run; try (exfalso; congruence); (split; [discriminate|]);
    intros Hv Hend; try reflexivity; try discriminate;
    match goal with H : (_ <=? _) = false |- _ => apply Z.leb_gt in H; lia end.
Qed.

(** The classifier of [nan_onset_example] on a silent frame: the frame is
    the tenth silent one, it reaches [speech_end_frames = 10], the test
    [9 * NaN < 200] is false and the burst of three voiced frames ends in
    [SPEECH_END]. *)
Lemma nan_duration_disables_rejection_witness :
  fst (fst (vad_state_machine_process (Some nan_onset_example) 0 CFloat.zero))
  <> VAD_STATE_SILENCE
  /\ fst (fst (vad_state_machine_process (Some nan_onset_example) 0 CFloat.zero))
     = VAD_STATE_SPEECH_END.
Proof.
  pose proof (nan_duration_disables_rejection nan_onset_example 0 CFloat.zero
                (or_introl eq_refl) eq_refl) as H.
  cbv zeta in H. destruct H as (Hne & Hend).
  split; [exact Hne|].
  apply Hend; [reflexivity | vm_compute; discriminate].
Defined.

(** The same thirteen frames with frames of 16 ms: the burst lasts
    [10 * 16 = 160 < 200] ms and is rejected, the classifier is back in
    [SILENCE]; with the NaN duration it is in [SPEECH_END]. *)
Example nan_duration_changes_outcome :
  let burst :=
    [(1, CFloat.zero); (1, CFloat.zero); (1, CFloat.zero);
     (0, CFloat.zero); (0, CFloat.zero); (0, CFloat.zero);
     (0, CFloat.zero); (0, CFloat.zero); (0, CFloat.zero);
     (0, CFloat.zero); (0, CFloat.zero); (0, CFloat.zero);
     (0, CFloat.zero)] in
  vad_state_machine_get_current_state
    (final_handle
       (process_all (vad_state_machine_create true None 256 16000 NULL NULL) burst))
  = VAD_STATE_SILENCE
  /\ vad_state_machine_get_current_state
       (final_handle
          (process_all (vad_state_machine_create true None 0 0 NULL NULL) burst))
     = VAD_STATE_SPEECH_END.
Proof. vm_compute. split; reflexivity. Qed.

(** X13. When the frame duration or [max_pause_duration_ms] is a NaN, the
    time-out test of [SPEECH_PAUSE] is false: no call moves a classifier
    from [SPEECH_PAUSE] to [SPEECH_END]. *)
Theorem nan_duration_pause_never_times_out :
  forall (sm : vad_state_machine) (vad_flag : Z) (probability : float),
    frame_duration_ms sm = S754_nan
    \/ max_pause_duration_ms (config sm) = S754_nan ->
    current_state sm = VAD_STATE_SPEECH_PAUSE ->
    fst (fst (vad_state_machine_process (Some sm) vad_flag probability))
    <> VAD_STATE_SPEECH_END.
Proof.
  intros [cfg hop rate fd st prev sp si tot csf ssf lsf fn data] f p Hnan Hst.
  cbn [frame_duration_ms config current_state] in Hnan, Hst. subst st.
  assert (Hge : forall n,
             CFloat.ge (CFloat.mul (CFloat.of_Z n) fd)
               (max_pause_duration_ms cfg) = false).
  { intros n.
    destruct Hnan as [-> | ->]; [rewrite mul_nan_r; apply ge_nan_l | apply ge_nan_r]. }
  rewrite process_valid_handle. cbn [fst].
  sm_unfold. sm_run; try discriminate;
    match goal with H : CFloat.ge _ _ = true |- _ => rewrite Hge in H; discriminate H end.
Qed.

(** The classifier of [nan_pause_example] on a silent frame. *)
Lemma nan_duration_pause_never_times_out_witness :
  fst (fst (vad_state_machine_process (Some nan_pause_example) 0 CFloat.zero))
  <> VAD_STATE_SPEECH_END.
Proof.
  apply (nan_duration_pause_never_times_out nan_pause_example 0 CFloat.zero).
  - left. reflexivity.
  - reflexivity.
Defined.

(** ** Names and accessors *)

(** X14. [vad_state_get_name] gives different names to different states. *)
Theorem state_names_distinct :
  forall (a b : vad_state_t),
    vad_state_get_name a = vad_state_get_name b -> a = b.
Proof. intros [] [] H; first [reflexivity | discriminate H]. Qed.

(** The name of [SPEECH_PAUSE]. *)
Lemma state_names_distinct_witness :
  VAD_STATE_SPEECH_PAUSE = VAD_STATE_SPEECH_PAUSE.
Proof.
  apply (state_names_distinct VAD_STATE_SPEECH_PAUSE VAD_STATE_SPEECH_PAUSE).
  reflexivity.
Defined.

(** X15. Right after a call of [vad_state_machine_process],
    [vad_state_machine_get_current_state] on the same handle gives the
    state the call returned; this holds for a null handle too. *)
Theorem accessor_agrees_with_process :
  forall (h : handle) (vad_flag : Z) (probability : float),
    vad_state_machine_get_current_state
      (snd (fst (vad_state_machine_process h vad_flag probability)))
    = fst (fst (vad_state_machine_process h vad_flag probability)).
Proof.
  intros [sm|] f p; [|reflexivity].
  rewrite process_valid_handle. cbn [fst snd vad_state_machine_get_current_state].
  symmetry. apply process_frame_returns_state.
Qed.

Lemma mul_zero_finite :
  forall x, float_is_finite x = true ->
    float_is_zero (CFloat.mul (CFloat.of_Z 0) x) = true.
Proof. intros [s|s| |s m e] H; try discriminate H; reflexivity. Qed.

(** X16. When the frame duration is finite, the duration
    [vad_state_machine_get_current_state_duration] reports right after a
    call that changed the state is zero. *)
Theorem duration_zero_after_transition :
  forall (sm : vad_state_machine) (vad_flag : Z) (probability : float),
    float_is_finite (frame_duration_ms sm) = true ->
    let after := vad_state_machine_process (Some sm) vad_flag probability in
    fst (fst after) <> current_state sm ->
    float_is_zero
      (vad_state_machine_get_current_state_duration (snd (fst after))) = true.
Proof.
  intros sm f p Hfin after Hchg. unfold after in *. clear after.
  rewrite process_valid_handle in *. cbn [fst snd] in *.
  cbn [vad_state_machine_get_current_state_duration].
  destruct (process_frame_constants sm f p) as (_ & _ & _ & Hfd & _).
  cbv zeta in Hfd. rewrite Hfd.
  rewrite process_frame_returns_state in Hchg.
  destruct (process_frame_state_frames sm f p) as [[Hs _]|[_ Hc]];
    cbv zeta in *; [contradiction|].
  rewrite Hc. apply mul_zero_finite. exact Hfin.
Qed.

(** The classifier of [speech_end_example] decays to [SILENCE]. *)
Lemma duration_zero_after_transition_witness :
  float_is_zero
    (vad_state_machine_get_current_state_duration
       (snd (fst (vad_state_machine_process (Some speech_end_example) 0 CFloat.zero))))
  = true.
Proof.
  apply (duration_zero_after_transition speech_end_example 0 CFloat.zero).
  - reflexivity.
  - vm_compute. discriminate.
Defined.
